(** * Synthetic sample generator of the multi-object detection notebook

    Shallow embedding of [generate_sample] and [create_dataset] from
    "Object Detection - Multiple Objects.ipynb", with the three libraries the
    two functions call (random, PIL, numpy) modelled at the level of their
    documented contracts:

    - Python's [random] module is a hidden global state; here it is an explicit
      state of any type [R] that implements [RandomSource].
    - numpy float64 values are Rocq's primitive binary64 floats, so the
      normalisation [x / IMG_SIZE] is the IEEE division numpy performs.
    - exceptions are the [Raise] branch of [Result]; every library call that
      can raise in Python can raise here. *)

From Stdlib Require Import String.
From Stdlib Require Import ZArith List Lia Bool.
From Stdlib Require Import Floats.PrimFloat Numbers.Cyclic.Int63.Uint63.
Import ListNotations.
Open Scope Z_scope.

(* ================================================================= *)
(** ** Exceptions and the state-and-exception monad *)

Inductive PyError : Type :=
| ValueError
| IndexError.

Inductive Result (A : Type) : Type :=
| Ok (a : A)
| Raise (e : PyError).

Arguments Ok {A} a.
Arguments Raise {A} e.

(** A computation that may advance the random source [R] and may raise. *)
Definition M (R A : Type) : Type := R -> Result (A * R).

Definition ret {R A} (a : A) : M R A := fun s => Ok (a, s).

Definition bind {R A B} (c : M R A) (k : A -> M R B) : M R B :=
  fun s =>
    match c s with
    | Ok (a, s') => k a s'
    | Raise e => Raise e
    end.

(** A library call that touches no random state. *)
Definition lift {R A} (r : Result A) : M R A :=
  fun s =>
    match r with
    | Ok a => Ok (a, s)
    | Raise e => Raise e
    end.

Declare Scope py_scope.
Delimit Scope py_scope with py.

Notation "x <- c ;; k" := (bind c (fun x => k))
  (at level 61, c at next level, right associativity) : py_scope.
Notation "' p <- c ;; k" := (bind c (fun x => match x with p => k end))
  (at level 61, p pattern, c at next level, right associativity) : py_scope.

Open Scope py_scope.

(** [for x in xs: st = body(x, st)] *)
Fixpoint for_each {R A St} (xs : list A) (body : A -> St -> M R St) (st : St)
  : M R St :=
  match xs with
  | [] => ret st
  | x :: xs' => st' <- body x st ;; for_each xs' body st'
  end.

(** Python's [range(n)] for an int [n]: empty when [n <= 0]. *)
Definition range (n : Z) : list Z := map Z.of_nat (seq 0 (Z.to_nat n)).

(* ================================================================= *)
(** ** The random source *)

(** [next_in a b s] is what the source hands out for [randint(a, b)] in
    state [s], with the state after the draw.  The only law is the one the
    documentation of [random.randint] gives: the result [N] has
    [a <= N <= b]. *)
Class RandomSource (R : Type) : Type := {
  next_in : Z -> Z -> R -> Z * R;
  next_in_range : forall a b s, a <= b -> a <= fst (next_in a b s) <= b
}.

Module random.

(** [random.randint(a, b)]; an empty range raises [ValueError]. *)
Definition randint {R} `{RandomSource R} (a b : Z) : M R Z :=
  fun s => if b <? a then Raise ValueError else Ok (next_in a b s).

End random.

(** A source that replays a tape of raw numbers, reducing each into the
    requested range.  It is the source the concrete runs below use. *)
Record Tape : Type := { raw : nat -> Z; pos : nat }.

Definition tape_next (a b : Z) (t : Tape) : Z * Tape :=
  (a + raw t (pos t) mod (b - a + 1), {| raw := raw t; pos := S (pos t) |}).

Definition tape_of (l : list Z) : Tape :=
  {| raw := fun i => nth i l 0; pos := 0 |}.

#[export] Instance TapeSource : RandomSource Tape := {|
  next_in := tape_next;
  next_in_range := ltac:(intros a b t Hab; simpl;
    pose proof (Z.mod_pos_bound (raw t (pos t)) (b - a + 1)); lia)
|}.

(* ================================================================= *)
(** ** numpy: float64 arrays as lists of primitive floats *)

(** An int as a float64.  Exact for |z| < 2^53; the generator only converts
    pixel coordinates, [IMG_SIZE] and channel values. *)
Definition float_of_Z (z : Z) : float :=
  match z with
  | Z0 => PrimFloat.zero
  | Zpos _ => PrimFloat.of_uint63 (Uint63.of_Z z)
  | Zneg _ => PrimFloat.opp (PrimFloat.of_uint63 (Uint63.of_Z (- z)))
  end.

(** One row of [bboxes]: x1, y1, x2, y2. *)
Definition Box : Type := (float * float * float * float)%type.

Definition ImageArray : Type := list (list (list float)).

Fixpoint list_set {A} (l : list A) (n : nat) (v : A) : list A :=
  match l, n with
  | [], _ => []
  | _ :: t, O => v :: t
  | h :: t, S n' => h :: list_set t n' v
  end.

Module np.

(** [np.zeros(n)]: a negative dimension raises [ValueError]. *)
Definition zeros (n : Z) : Result (list float) :=
  if n <? 0 then Raise ValueError
  else Ok (repeat PrimFloat.zero (Z.to_nat n)).

(** [np.zeros((n, 4))]. *)
Definition zeros4 (n : Z) : Result (list Box) :=
  if n <? 0 then Raise ValueError
  else Ok (repeat (PrimFloat.zero, PrimFloat.zero, PrimFloat.zero, PrimFloat.zero)
                  (Z.to_nat n)).

(** [a[i] = v] along the first axis: indices in [-len, len) are accepted,
    negative ones counting from the end; anything else is [IndexError]. *)
Definition setitem {A} (a : list A) (i : Z) (v : A) : Result (list A) :=
  let n := Z.of_nat (length a) in
  if (0 <=? i) && (i <? n) then Ok (list_set a (Z.to_nat i) v)
  else if (- n <=? i) && (i <? 0) then Ok (list_set a (Z.to_nat (n + i)) v)
  else Raise IndexError.

(** [np.array([x1, y1, x2, y2]) / d] for ints: each entry is converted to
    float64 and divided by [float(d)].  Division by zero gives inf or nan and
    a warning, not an exception. *)
Definition divide4 (b : Z * Z * Z * Z) (d : Z) : Box :=
  let '(x1, y1, x2, y2) := b in
  (PrimFloat.div (float_of_Z x1) (float_of_Z d),
   PrimFloat.div (float_of_Z y1) (float_of_Z d),
   PrimFloat.div (float_of_Z x2) (float_of_Z d),
   PrimFloat.div (float_of_Z y2) (float_of_Z d)).

End np.

(* ================================================================= *)
(** ** PIL: an RGB image as rows of pixels *)

Definition Pixel : Type := (Z * Z * Z)%type.

Definition black : Pixel := (0, 0, 0).
Definition red : Pixel := (255, 0, 0).
Definition blue : Pixel := (0, 0, 255).

(** Rows from top to bottom, each row from left to right. *)
Definition PILImage : Type := list (list Pixel).

Fixpoint imap_from {A B} (i : nat) (f : nat -> A -> B) (l : list A) : list B :=
  match l with
  | [] => []
  | a :: l' => f i a :: imap_from (S i) f l'
  end.

Definition imap {A B} (f : nat -> A -> B) (l : list A) : list B :=
  imap_from 0 f l.

(** Fill with [c] every pixel of the image that [cover x y] selects; pixels
    outside the image do not exist, which is PIL's clipping. *)
Definition paint (cover : Z -> Z -> bool) (c : Pixel) (img : PILImage) : PILImage :=
  imap (fun y row =>
          imap (fun x p => if cover (Z.of_nat x) (Z.of_nat y) then c else p) row)
       img.

(** PIL's [rectangle] fills the bounding box with both end points included. *)
Definition rectangle_cover (xy : Z * Z * Z * Z) (x y : Z) : bool :=
  let '(x1, y1, x2, y2) := xy in
  (x1 <=? x) && (x <=? x2) && (y1 <=? y) && (y <=? y2).

Module Image.

(** [Image.new("RGB", (w, h), color)]: a negative side raises [ValueError]. *)
Definition new (w h : Z) (color : Pixel) : Result PILImage :=
  if (w <? 0) || (h <? 0) then Raise ValueError
  else Ok (repeat (repeat color (Z.to_nat w)) (Z.to_nat h)).

End Image.

Module ImageDraw.

(** Both drawing calls raise [ValueError] when x2 < x1 or y2 < y1. *)
Definition ordered (xy : Z * Z * Z * Z) : bool :=
  let '(x1, y1, x2, y2) := xy in (x1 <=? x2) && (y1 <=? y2).

Definition rectangle (xy : Z * Z * Z * Z) (fill : Pixel) (img : PILImage)
  : Result PILImage :=
  if ordered xy then Ok (paint (rectangle_cover xy) fill img)
  else Raise ValueError.

(** [ellipse_cover xy x y] says whether PIL's ellipse rasteriser fills pixel
    (x, y) for the bounding box [xy]; the rasteriser is PIL's and is taken
    as a parameter. *)
Definition ellipse (ellipse_cover : Z * Z * Z * Z -> Z -> Z -> bool)
  (xy : Z * Z * Z * Z) (fill : Pixel) (img : PILImage) : Result PILImage :=
  if ordered xy then Ok (paint (ellipse_cover xy) fill img)
  else Raise ValueError.

End ImageDraw.

(** [np.array(img) / 255.0]: height x width x 3, each channel scaled. *)
Definition scale_channel (v : Z) : float :=
  PrimFloat.div (float_of_Z v) 255%float.

Definition image_to_array (img : PILImage) : ImageArray :=
  map (map (fun p : Pixel =>
              let '(r, g, b) := p in
              [scale_channel r; scale_channel g; scale_channel b]))
      img.

(** An ellipse rasteriser for concrete runs: the pixels whose centre lies in
    the ellipse inscribed in the box.  It stands for PIL's in examples only;
    every theorem below holds for any rasteriser. *)
Definition inscribed_ellipse (xy : Z * Z * Z * Z) (x y : Z) : bool :=
  let '(x1, y1, x2, y2) := xy in
  let w := x2 - x1 in
  let h := y2 - y1 in
  let dx := 2 * x - (x1 + x2) in
  let dy := 2 * y - (y1 + y2) in
  dx * dx * (h * h) + dy * dy * (w * w) <=? w * w * (h * h).

(* ================================================================= *)
(** ** The notebook's globals and its two functions *)

Record Globals : Type := { IMG_SIZE : Z; NUM_CLASSES : Z }.

(** [IMG_SIZE = 64], [NUM_CLASSES = 2]. *)
Definition notebook : Globals := {| IMG_SIZE := 64; NUM_CLASSES := 2 |}.

(** What [generate_sample] returns: img_array, labels, bboxes. *)
Definition Sample : Type := (ImageArray * list float * list Box)%type.

(** What [create_dataset] returns: X, y_cls, y_bbox. *)
Definition Dataset : Type :=
  (list ImageArray * list (list float) * list (list Box))%type.

Section Generator.

Context {R : Type} `{RandomSource R}.
Variable ellipse_cover : Z * Z * Z * Z -> Z -> Z -> bool.
Variable g : Globals.

(** The body of [for cls in range(NUM_CLASSES)], on the three objects it
    mutates: the image behind [draw], [labels] and [bboxes]. *)
Definition class_step (cls : Z) (st : PILImage * list float * list Box)
  : M R (PILImage * list float * list Box) :=
  let '(img, labels, bboxes) := st in
  x1 <- random.randint 5 30 ;;
  y1 <- random.randint 5 30 ;;
  let x2 := x1 + 20 in
  let y2 := y1 + 20 in
  img <- lift (if cls =? 0 then ImageDraw.rectangle (x1, y1, x2, y2) red img
               else Ok img) ;;
  img <- lift (if cls =? 1
               then ImageDraw.ellipse ellipse_cover (x1, y1, x2, y2) blue img
               else Ok img) ;;
  labels <- lift (np.setitem labels cls PrimFloat.one) ;;
  bboxes <- lift (np.setitem bboxes cls
                    (np.divide4 (x1, y1, x2, y2) (IMG_SIZE g))) ;;
  ret (img, labels, bboxes).

Definition generate_sample : M R Sample :=
  img <- lift (Image.new (IMG_SIZE g) (IMG_SIZE g) black) ;;
  labels <- lift (np.zeros (NUM_CLASSES g)) ;;
  bboxes <- lift (np.zeros4 (NUM_CLASSES g)) ;;
  ' (img, labels, bboxes) <-
    for_each (range (NUM_CLASSES g)) class_step (img, labels, bboxes) ;;
  ret (image_to_array img, labels, bboxes).

(** The three lists grow by one entry per iteration; [np.array] of a list of
    equally shaped arrays stacks them in order. *)
Definition create_dataset (num_samples : Z) : M R Dataset :=
  for_each (range num_samples)
    (fun _ (acc : Dataset) =>
       let '(X, y_cls, y_bbox) := acc in
       ' (img, labels, bboxes) <- generate_sample ;;
       ret (X ++ [img], y_cls ++ [labels], y_bbox ++ [bboxes]))
    ([], [], []).

End Generator.

(* ================================================================= *)
(** ** Notions used to state the properties *)

(** The pixel coordinates the loop body computes from its two draws. *)
Definition raw_box (c : Z * Z) : Z * Z * Z * Z :=
  let '(x1, y1) := c in (x1, y1, x1 + 20, y1 + 20).

Section Draws.

Context {R : Type} `{RandomSource R}.

(** The two draws of one loop iteration, x1 first, then y1. *)
Definition draw_pair (s : R) : (Z * Z) * R :=
  let (x1, s1) := next_in 5 30 s in
  let (y1, s2) := next_in 5 30 s1 in
  ((x1, y1), s2).

(** The (x1, y1) pairs of [n] successive iterations and the state they leave. *)
Fixpoint draws (n : nat) (s : R) : list (Z * Z) * R :=
  match n with
  | O => ([], s)
  | S n' =>
      let (c, s1) := draw_pair s in
      let (cs, s2) := draws n' s1 in
      (c :: cs, s2)
  end.

End Draws.

(** What one iteration draws on the image for class [cls]. *)
Definition paint_class (ellipse_cover : Z * Z * Z * Z -> Z -> Z -> bool)
  (cls : Z) (xy : Z * Z * Z * Z) (img : PILImage) : PILImage :=
  let img1 := if cls =? 0 then paint (rectangle_cover xy) red img else img in
  if cls =? 1 then paint (ellipse_cover xy) blue img1 else img1.

(** The image after the iterations for classes [cls], [cls + 1], ... *)
Fixpoint render_from (ellipse_cover : Z * Z * Z * Z -> Z -> Z -> bool)
  (cls : Z) (cs : list (Z * Z)) (img : PILImage) : PILImage :=
  match cs with
  | [] => img
  | c :: cs' =>
      render_from ellipse_cover (cls + 1) cs'
        (paint_class ellipse_cover cls (raw_box c) img)
  end.

Definition blank (size : Z) : PILImage :=
  repeat (repeat black (Z.to_nat size)) (Z.to_nat size).

(** PIL's [getpixel((x, y))] for a pixel of the image. *)
Definition getpixel (img : PILImage) (x y : nat) : Pixel :=
  nth x (nth y img []) black.

(** The float64 channels [np.array(img) / 255.0] holds for a pixel. *)
Definition channels (p : Pixel) : list float :=
  let '(r, g, b) := p in [scale_channel r; scale_channel g; scale_channel b].

(** [a[y][x]] of an image array: the three channels of pixel (x, y). *)
Definition pixel_at (a : ImageArray) (x y : Z) : list float :=
  nth (Z.to_nat x) (nth (Z.to_nat y) a []) [].

(** Well-formed and inside the unit square, with IEEE comparisons. *)
Definition box_in_unit_square (b : Box) : Prop :=
  let '(x1, y1, x2, y2) := b in
  (PrimFloat.leb 0 x1 = true /\ PrimFloat.ltb x1 x2 = true /\ PrimFloat.leb x2 1 = true) /\
  (PrimFloat.leb 0 y1 = true /\ PrimFloat.ltb y1 y2 = true /\ PrimFloat.leb y2 1 = true).

(** The same on pixel coordinates, for a canvas of side [size]. *)
Definition raw_box_in_canvas (size : Z) (b : Z * Z * Z * Z) : Prop :=
  let '(x1, y1, x2, y2) := b in
  (0 <= x1 < x2 /\ x2 <= size) /\ (0 <= y1 < y2 /\ y2 <= size).

(** Both sides of a normalised box are [side / size], with IEEE [==]. *)
Definition box_has_side (side size : Z) (b : Box) : Prop :=
  let '(x1, y1, x2, y2) := b in
  PrimFloat.eqb (PrimFloat.sub x2 x1)
                (PrimFloat.div (float_of_Z side) (float_of_Z size)) = true /\
  PrimFloat.eqb (PrimFloat.sub y2 y1)
                (PrimFloat.div (float_of_Z side) (float_of_Z size)) = true.

Section Calls.

Context {R : Type} `{RandomSource R}.
Variable ellipse_cover : Z * Z * Z * Z -> Z -> Z -> bool.
Variable g : Globals.

(** The random state one call of [generate_sample] leaves (the state is
    untouched when the call raises). *)
Definition after_sample (s : R) : R :=
  match generate_sample ellipse_cover g s with
  | Ok (_, s') => s'
  | Raise _ => s
  end.

(** The random state in which call number [i] (from 0) of a run starts. *)
Fixpoint call_state (i : nat) (s : R) : R :=
  match i with
  | O => s
  | S i' => call_state i' (after_sample s)
  end.

End Calls.

(** The check behind the float properties of one normalised coordinate
    pair [x / 64], [(x + 20) / 64]: in [0, 1], strictly ordered, and
    exactly [20 / 64] apart. *)
Definition coord_ok (x : Z) : bool :=
  let a := PrimFloat.div (float_of_Z x) (float_of_Z 64) in
  let b := PrimFloat.div (float_of_Z (x + 20)) (float_of_Z 64) in
  PrimFloat.leb 0 a && PrimFloat.ltb a b && PrimFloat.leb b 1 &&
  PrimFloat.eqb (PrimFloat.sub b a)
                (PrimFloat.div (float_of_Z 20) (float_of_Z 64)).

(** A draw of [randint(5, 30)]. *)
Definition in_5_30 (c : Z * Z) : Prop :=
  (5 <= fst c <= 30) /\ (5 <= snd c <= 30).

Section Runs.

Context {R : Type} `{RandomSource R}.
Variable ellipse_cover : Z * Z * Z * Z -> Z -> Z -> bool.
Variable g : Globals.

(** The samples of [n] successive calls of [generate_sample], in call order
    (cut short at a call that raises). *)
Fixpoint runs (n : nat) (s : R) : list Sample :=
  match n with
  | O => []
  | S n' =>
      match generate_sample ellipse_cover g s with
      | Ok (smp, s') => smp :: runs n' s'
      | Raise _ => []
      end
  end.

End Runs.

(** The three components of a sample. *)
Definition sample_image (smp : Sample) : ImageArray := fst (fst smp).
Definition sample_labels (smp : Sample) : list float := snd (fst smp).
Definition sample_boxes (smp : Sample) : list Box := snd smp.

(** ** Concrete runs *)

(** A tape on which the draws are 10, 10, 20, 15, and a second one, with
    other raw numbers, on which they are the same. *)
Definition demo_tape : Tape := tape_of [5; 5; 15; 10].
Definition demo_tape' : Tape := tape_of [31; 57; 41; 36].

Definition demo_after (t : Tape) : Tape := {| raw := raw t; pos := 4 |}.

Definition demo_image : ImageArray :=
  image_to_array
    (render_from inscribed_ellipse 0 [(10, 10); (20, 15)] (blank 64)).

Definition demo_boxes : list Box :=
  [(0.15625, 0.15625, 0.46875, 0.46875)%float;
   (0.3125, 0.234375, 0.625, 0.546875)%float].

(** A tape on which both shapes land on the box (10, 10, 30, 30). *)
Definition overlap_tape : Tape := tape_of [5; 5; 5; 5].

Definition overlap_image : ImageArray :=
  image_to_array
    (render_from inscribed_ellipse 0 [(10, 10); (10, 10)] (blank 64)).

(** A tape whose first draw is 30, the upper end of [randint(5, 30)]. *)
Definition edge_tape : Tape := tape_of [25; 0; 0; 0].

(* ================================================================= *)
(** ** Shape and colours of a PIL image *)




(** The pixels of the inclusive box (x1, y1, x1 + 20, y1 + 20). *)
Definition in_box_20 (x1 y1 x y : Z) : bool :=
  (x1 <=? x) && (x <=? x1 + 20) && (y1 <=? y) && (y <=? y1 + 20).

(* ================================================================= *)
(** ** matplotlib and [plot_sample] *)

(** The two exceptions [plot_sample] can end in: [ax.imshow] rejecting the
    array (a TypeError) and an index out of range (an IndexError). *)
Inductive PlotError : Type :=
| ImshowTypeError
| PlotIndexError.

Inductive Outcome (A : Type) : Type :=
| Done (a : A)
| Fails (e : PlotError).

Arguments Done {A} a.
Arguments Fails {A} e.

Definition and_then {A B} (r : Outcome A) (k : A -> Outcome B) : Outcome B :=
  match r with
  | Done a => k a
  | Fails e => Fails e
  end.

Notation "x <-- c ;; k" := (and_then c (fun x => k))
  (at level 61, c at next level, right associativity) : py_scope.

(** [a[i]] on a Python list or along the first axis of an array: indices in
    [-len, len) are accepted, anything else is an IndexError. *)
Definition getitem {A} (a : list A) (i : Z) (d : A) : Outcome A :=
  let n := Z.of_nat (length a) in
  if (0 <=? i) && (i <? n) then Done (nth (Z.to_nat i) a d)
  else if (- n <=? i) && (i <? 0) then Done (nth (Z.to_nat (n + i)) a d)
  else Fails PlotIndexError.

(** [bool(x)] of a float64: false for 0.0 and -0.0, true otherwise (nan too). *)
Definition truthy (x : float) : bool := negb (PrimFloat.eqb x 0).

(** [row * d] for a float64 row and an int. *)
Definition multiply4 (b : Box) (d : Z) : Box :=
  let '(x1, y1, x2, y2) := b in
  (PrimFloat.mul x1 (float_of_Z d), PrimFloat.mul y1 (float_of_Z d),
   PrimFloat.mul x2 (float_of_Z d), PrimFloat.mul y2 (float_of_Z d)).

(** [patches.Rectangle((x, y), width, height, linewidth=..., edgecolor=...,
    facecolor=...)] *)
Record RectanglePatch : Type := {
  rect_xy : float * float;
  rect_width : float;
  rect_height : float;
  rect_linewidth : Z;
  rect_edgecolor : string;
  rect_facecolor : string
}.

(** [ax.text(x, y, s, color=..., fontsize=...)] *)
Record TextArtist : Type := {
  text_x : float;
  text_y : float;
  text_s : string;
  text_color : string;
  text_fontsize : Z
}.

Inductive Artist : Type :=
| Patch (r : RectanglePatch)
| Text (t : TextArtist).

(** What [plt.show()] displays: the image given to [imshow], the artists in
    the order they were added, and whether the axis is drawn. *)
Record Figure : Type := {
  fig_image : ImageArray;
  fig_artists : list Artist;
  fig_axis : bool
}.

Definition class_names : list string := ["square"%string; "circle"%string].
Definition colors : list string := ["violet"%string; "yellow"%string].

Section Plot.

(** Whether [ax.imshow] accepts an array is matplotlib's business. *)
Variable imshow_accepts : ImageArray -> bool.
Variable g : Globals.

(** The body of [for cls in range(len(labels))], on the artists added so
    far. *)
Definition plot_class (labels : list float) (bboxes : list Box) (cls : Z)
  (artists : list Artist) : Outcome (list Artist) :=
  present <-- getitem labels cls PrimFloat.zero ;;
  if truthy present then
    row <-- getitem bboxes cls
              (PrimFloat.zero, PrimFloat.zero, PrimFloat.zero, PrimFloat.zero) ;;
    let '(x1, y1, x2, y2) := multiply4 row (IMG_SIZE g) in
    let width := PrimFloat.sub x2 x1 in
    let height := PrimFloat.sub y2 y1 in
    edge <-- getitem colors cls ""%string ;;
    let rect := {| rect_xy := (x1, y1); rect_width := width;
                   rect_height := height; rect_linewidth := 2;
                   rect_edgecolor := edge; rect_facecolor := "none"%string |} in
    let artists := artists ++ [Patch rect] in
    name <-- getitem class_names cls ""%string ;;
    color <-- getitem colors cls ""%string ;;
    Done (artists ++ [Text {| text_x := x1; text_y := PrimFloat.sub y1 5;
                              text_s := name; text_color := color;
                              text_fontsize := 12 |}])
  else Done artists.

Fixpoint plot_loop (labels : list float) (bboxes : list Box) (classes : list Z)
  (artists : list Artist) : Outcome (list Artist) :=
  match classes with
  | [] => Done artists
  | cls :: rest =>
      artists' <-- plot_class labels bboxes cls artists ;;
      plot_loop labels bboxes rest artists'
  end.

Definition plot_sample (img_array : ImageArray) (labels : list float)
  (bboxes : list Box) : Outcome Figure :=
  if imshow_accepts img_array then
    artists <-- plot_loop labels bboxes (range (Z.of_nat (length labels))) [] ;;
    Done {| fig_image := img_array; fig_artists := artists; fig_axis := false |}
  else Fails ImshowTypeError.

(** The two artists [plot_sample] adds for a present class [cls] < 2. *)
Definition class_artists (bboxes : list Box) (cls : nat) : list Artist :=
  let '(x1, y1, x2, y2) :=
    multiply4 (nth cls bboxes
                 (PrimFloat.zero, PrimFloat.zero, PrimFloat.zero, PrimFloat.zero))
              (IMG_SIZE g) in
  [Patch {| rect_xy := (x1, y1); rect_width := PrimFloat.sub x2 x1;
            rect_height := PrimFloat.sub y2 y1; rect_linewidth := 2;
            rect_edgecolor := nth cls colors ""%string;
            rect_facecolor := "none"%string |};
   Text {| text_x := x1; text_y := PrimFloat.sub y1 5;
           text_s := nth cls class_names ""%string;
           text_color := nth cls colors ""%string;
           text_fontsize := 12 |}].

(** A class [plot_sample] cannot draw: present, but with no box, no name or
    no colour at its index. *)
Definition undrawable (labels : list float) (bboxes : list Box) (cls : nat)
  : bool :=
  truthy (nth cls labels PrimFloat.zero) &&
  ((length bboxes <=? cls)%nat || (2 <=? cls)%nat).

End Plot.

(** The overlay for a 20 x 20 box at pixel (x1, y1), as [plot_sample] draws
    it for class [cls]. *)
Definition expected_artists (cls : nat) (c : Z * Z) : list Artist :=
  let '(x1, y1) := c in
  [Patch {| rect_xy := (float_of_Z x1, float_of_Z y1);
            rect_width := 20%float; rect_height := 20%float;
            rect_linewidth := 2;
            rect_edgecolor := nth cls colors ""%string;
            rect_facecolor := "none"%string |};
   Text {| text_x := float_of_Z x1; text_y := float_of_Z (y1 - 5);
           text_s := nth cls class_names ""%string;
           text_color := nth cls colors ""%string;
           text_fontsize := 12 |}].

(** Globals for concrete runs with a negative size, an undersized canvas
    and a third class. *)
Definition negative_size : Globals := {| IMG_SIZE := -1; NUM_CLASSES := 2 |}.
Definition small_canvas : Globals := {| IMG_SIZE := 40; NUM_CLASSES := 2 |}.
Definition three_classes : Globals := {| IMG_SIZE := 64; NUM_CLASSES := 3 |}.

(** The float check behind an undersized canvas: 50 / size exceeds 1. *)
Definition overflows (size : Z) : bool :=
  negb (PrimFloat.leb (PrimFloat.div (float_of_Z 50) (float_of_Z size)) 1).


(** Exactness of the float64 round trip through the normalisation by 64
    for a drawn coordinate [x]: [x / 64 * 64] is [x], the same for
    [x + 20], their difference is 20, and [x - 5] is exact too. *)
Definition denormalises (x : Z) : Prop :=
  PrimFloat.mul (PrimFloat.div (float_of_Z x) (float_of_Z 64)) (float_of_Z 64)
  = float_of_Z x /\
  PrimFloat.mul (PrimFloat.div (float_of_Z (x + 20)) (float_of_Z 64))
                (float_of_Z 64)
  = float_of_Z (x + 20) /\
  PrimFloat.sub (float_of_Z (x + 20)) (float_of_Z x) = 20%float /\
  PrimFloat.sub (float_of_Z x) 5 = float_of_Z (x - 5).

(** What [plot_sample] adds for class [cls]: two artists if the class is
    present, nothing if it is not. *)
Definition overlay (g : Globals) (labels : list float) (bboxes : list Box)
  (cls : nat) : list Artist :=
  if truthy (nth cls labels PrimFloat.zero) then class_artists g bboxes cls
  else [].

(** The number of classes a label vector marks present. *)
Definition count_present (labels : list float) : nat :=
  length (filter truthy labels).

Definition accept_all (a : ImageArray) : bool := true.

Definition three_class_tape : Tape := tape_of [5; 5; 15; 10; 0; 25].

Definition three_class_image : ImageArray :=
  image_to_array
    (render_from inscribed_ellipse 0 [(10, 10); (20, 15); (5, 30)] (blank 64)).

Definition three_class_boxes : list Box :=
  map (fun c => np.divide4 (raw_box c) 64) [(10, 10); (20, 15); (5, 30)].

Example run_sample :
  match generate_sample inscribed_ellipse notebook (tape_of [5; 5; 15; 10]) with
  | Ok ((_, labels, bboxes), s) => (labels, bboxes, pos s)
  | Raise _ => ([], [], O)
  end
  = ([1%float; 1%float],
     [(0.15625, 0.15625, 0.46875, 0.46875)%float;
      (0.3125, 0.234375, 0.625, 0.546875)%float], 4%nat).
Proof. vm_compute. reflexivity. Qed.

(* ================================================================= *)
(** ** The loop of [generate_sample], iteration by iteration *)

Lemma list_set_app {A} (la : list A) (x v : A) (l : list A) :
  list_set (la ++ x :: l) (length la) v = la ++ v :: l.
Proof.
  induction la as [|a la IH]; simpl.
  - reflexivity.
  - now rewrite IH.
Qed.

Lemma setitem_app {A} (la : list A) (x v : A) (l : list A) :
  np.setitem (la ++ x :: l) (Z.of_nat (length la)) v = Ok (la ++ v :: l).
Proof.
  unfold np.setitem.
  rewrite length_app; simpl length.
  replace ((0 <=? Z.of_nat (length la)) &&
           (Z.of_nat (length la) <? Z.of_nat (length la + S (length l))))
    with true.
  - now rewrite Nat2Z.id, list_set_app.
  - symmetry. apply andb_true_intro. split.
    + apply Z.leb_le. lia.
    + apply Z.ltb_lt. lia.
Qed.

Lemma setitem_at {A} (la : list A) (x v : A) (l : list A) (i : Z) :
  Z.of_nat (length la) = i ->
  np.setitem (la ++ x :: l) i v = Ok (la ++ v :: l).
Proof. intros <-. apply setitem_app. Qed.

Lemma ordered_raw_box (c : Z * Z) : ImageDraw.ordered (raw_box c) = true.
Proof.
  destruct c as [x1 y1]. unfold ImageDraw.ordered, raw_box.
  apply andb_true_intro. split; apply Z.leb_le; lia.
Qed.

Section LoopFacts.

Context {R : Type} `{RandomSource R}.
Variable ellipse_cover : Z * Z * Z * Z -> Z -> Z -> bool.
Variable g : Globals.

Lemma randint_5_30 (s : R) : random.randint 5 30 s = Ok (next_in 5 30 s).
Proof. reflexivity. Qed.

(** One iteration, when slot [cls] of both arrays exists. *)
Lemma class_step_eq (img : PILImage) (la lr : list float) (lx : float)
      (ba br : list Box) (bx : Box) (s : R) :
  length ba = length la ->
  class_step ellipse_cover g (Z.of_nat (length la))
             (img, la ++ lx :: lr, ba ++ bx :: br) s
  = Ok ((paint_class ellipse_cover (Z.of_nat (length la))
                     (raw_box (fst (draw_pair s))) img,
         la ++ PrimFloat.one :: lr,
         ba ++ np.divide4 (raw_box (fst (draw_pair s))) (IMG_SIZE g) :: br),
        snd (draw_pair s)).
Proof.
  intros Hlen.
  unfold class_step, bind, draw_pair.
  rewrite randint_5_30.
  destruct (next_in 5 30 s) as [x1 s1].
  rewrite randint_5_30.
  destruct (next_in 5 30 s1) as [y1 s2].
  cbn [fst snd].
  pose proof (ordered_raw_box (x1, y1)) as Hord. unfold raw_box in Hord.
  unfold paint_class, ImageDraw.rectangle, ImageDraw.ellipse, raw_box.
  rewrite Hord.
  rewrite (setitem_at la) by reflexivity.
  rewrite (setitem_at ba) by (now rewrite Hlen).
  destruct (Z.of_nat (length la) =? 0); destruct (Z.of_nat (length la) =? 1);
    reflexivity.
Qed.

(** The iterations for classes [i], [i+1], ..., [i+m-1], started with the
    first [i] slots of both arrays already written. *)
Lemma class_loop (m : nat) :
  forall (img : PILImage) (la : list float) (ba : list Box) (s : R),
    length ba = length la ->
    for_each (map Z.of_nat (seq (length la) m)) (class_step ellipse_cover g)
             (img, la ++ repeat PrimFloat.zero m,
              ba ++ repeat (PrimFloat.zero, PrimFloat.zero, PrimFloat.zero, PrimFloat.zero) m)
             s
    = Ok ((render_from ellipse_cover (Z.of_nat (length la)) (fst (draws m s)) img,
           la ++ repeat PrimFloat.one m,
           ba ++ map (fun c => np.divide4 (raw_box c) (IMG_SIZE g)) (fst (draws m s))),
          snd (draws m s)).
Proof.
  induction m as [|m IH]; intros img la ba s Hlen.
  - reflexivity.
  - cbn [seq map for_each repeat draws].
    unfold bind at 1.
    rewrite class_step_eq by exact Hlen.
    destruct (draw_pair s) as [c s1]. cbn [fst snd].
    specialize (IH (paint_class ellipse_cover (Z.of_nat (length la)) (raw_box c) img)
                   (la ++ [PrimFloat.one])
                   (ba ++ [np.divide4 (raw_box c) (IMG_SIZE g)]) s1).
    rewrite !length_app in IH. cbn [length] in IH.
    rewrite <- !app_assoc in IH. cbn [app] in IH.
    replace (length la + 1)%nat with (S (length la)) in IH by lia.
    rewrite IH by lia.
    destruct (draws m s1) as [cs s2]. cbn [fst snd render_from map].
    replace (Z.of_nat (S (length la))) with (Z.of_nat (length la) + 1) by lia.
    reflexivity.
Qed.

(** [generate_sample] in closed form: it cannot raise when the two globals
    are non-negative, and everything it returns is computed from the
    [NUM_CLASSES] pairs it draws. *)
Lemma generate_sample_eq (s : R) :
  0 <= IMG_SIZE g -> 0 <= NUM_CLASSES g ->
  generate_sample ellipse_cover g s
  = Ok ((image_to_array
           (render_from ellipse_cover 0
              (fst (draws (Z.to_nat (NUM_CLASSES g)) s)) (blank (IMG_SIZE g))),
         repeat PrimFloat.one (Z.to_nat (NUM_CLASSES g)),
         map (fun c => np.divide4 (raw_box c) (IMG_SIZE g))
             (fst (draws (Z.to_nat (NUM_CLASSES g)) s))),
        snd (draws (Z.to_nat (NUM_CLASSES g)) s)).
Proof.
  intros HS HK.
  unfold generate_sample, Image.new, np.zeros, np.zeros4, range.
  replace (IMG_SIZE g <? 0) with false by (symmetry; apply Z.ltb_ge; lia).
  replace (NUM_CLASSES g <? 0) with false by (symmetry; apply Z.ltb_ge; lia).
  cbn [orb]. unfold bind at 1 2 3. unfold lift at 1 2 3. unfold bind at 1.
  pose proof (class_loop (Z.to_nat (NUM_CLASSES g))
                (repeat (repeat black (Z.to_nat (IMG_SIZE g))) (Z.to_nat (IMG_SIZE g)))
                [] [] s eq_refl) as Hloop.
  cbn [length app] in Hloop. change (Z.of_nat 0) with 0 in Hloop.
  rewrite Hloop. reflexivity.
Qed.

End LoopFacts.

(* ================================================================= *)
(** ** The draws *)

Section DrawFacts.

Context {R : Type} `{RandomSource R}.

Lemma draw_pair_range (s : R) : in_5_30 (fst (draw_pair s)).
Proof.
  unfold draw_pair, in_5_30.
  pose proof (next_in_range 5 30 s) as H1.
  destruct (next_in 5 30 s) as [x1 s1].
  pose proof (next_in_range 5 30 s1) as H2.
  destruct (next_in 5 30 s1) as [y1 s2].
  cbn [fst snd] in *. lia.
Qed.

Lemma draws_length (n : nat) : forall s : R, length (fst (draws n s)) = n.
Proof.
  induction n as [|n IH]; intros s; cbn [draws].
  - reflexivity.
  - destruct (draw_pair s) as [c s1]. specialize (IH s1).
    destruct (draws n s1) as [cs s2]. cbn [fst length] in *. now rewrite IH.
Qed.

Lemma draws_range (n : nat) : forall s : R, Forall in_5_30 (fst (draws n s)).
Proof.
  induction n as [|n IH]; intros s; cbn [draws].
  - constructor.
  - pose proof (draw_pair_range s) as Hc.
    destruct (draw_pair s) as [c s1]. specialize (IH s1).
    destruct (draws n s1) as [cs s2]. cbn [fst] in *. now constructor.
Qed.

(** Drawing [a + b] pairs is drawing [a] and then [b]. *)
Lemma draws_app (a b : nat) : forall s : R,
  draws (a + b) s
  = (fst (draws a s) ++ fst (draws b (snd (draws a s))),
     snd (draws b (snd (draws a s)))).
Proof.
  induction a as [|a IH]; intros s; cbn [draws Nat.add].
  - cbn [fst snd app]. now destruct (draws b s).
  - destruct (draw_pair s) as [c s1]. rewrite IH.
    destruct (draws a s1) as [cs s2]. cbn [fst snd app]. reflexivity.
Qed.

End DrawFacts.

(** The tape hands out any pair of [5, 30] x [5, 30]. *)
Lemma tape_draw_pair (x y : Z) (rest : list Z) :
  5 <= x <= 30 -> 5 <= y <= 30 ->
  fst (draw_pair (tape_of (x - 5 :: y - 5 :: rest))) = (x, y).
Proof.
  intros Hx Hy. unfold draw_pair, tape_of.
  cbn [next_in TapeSource tape_next raw pos nth fst snd].
  change (30 - 5 + 1) with 26.
  rewrite (Z.mod_small (x - 5) 26), (Z.mod_small (y - 5) 26) by lia.
  f_equal; lia.
Qed.

(* ================================================================= *)
(** ** Float facts for IMG_SIZE = 64 *)

Lemma coord_ok_5_30 (x : Z) : 5 <= x <= 30 -> coord_ok x = true.
Proof.
  intros Hx.
  assert (Hin : In x (map Z.of_nat (seq 5 26))).
  { apply in_map_iff. exists (Z.to_nat x). split; [lia|]. apply in_seq. lia. }
  assert (Hall : forallb coord_ok (map Z.of_nat (seq 5 26)) = true)
    by (vm_compute; reflexivity).
  rewrite forallb_forall in Hall. now apply Hall.
Qed.

Lemma coord_ok_parts (x : Z) :
  coord_ok x = true ->
  let a := PrimFloat.div (float_of_Z x) (float_of_Z 64) in
  let b := PrimFloat.div (float_of_Z (x + 20)) (float_of_Z 64) in
  (PrimFloat.leb 0 a = true /\ PrimFloat.ltb a b = true /\ PrimFloat.leb b 1 = true) /\
  PrimFloat.eqb (PrimFloat.sub b a)
                (PrimFloat.div (float_of_Z 20) (float_of_Z 64)) = true.
Proof.
  unfold coord_ok. intros Hok.
  apply andb_prop in Hok. destruct Hok as [Hok Hside].
  apply andb_prop in Hok. destruct Hok as [Hok Hhi].
  apply andb_prop in Hok. destruct Hok as [Hlo Hlt].
  cbv zeta. auto.
Qed.

Lemma normalised_in_unit_square (c : Z * Z) :
  in_5_30 c -> box_in_unit_square (np.divide4 (raw_box c) 64).
Proof.
  destruct c as [x1 y1]. unfold in_5_30. cbn [fst snd]. intros [Hx Hy].
  unfold raw_box, np.divide4, box_in_unit_square.
  destruct (coord_ok_parts x1 (coord_ok_5_30 x1 Hx)) as [Hbx _].
  destruct (coord_ok_parts y1 (coord_ok_5_30 y1 Hy)) as [Hby _].
  split; assumption.
Qed.

Lemma normalised_side (c : Z * Z) :
  in_5_30 c -> box_has_side 20 64 (np.divide4 (raw_box c) 64).
Proof.
  destruct c as [x1 y1]. unfold in_5_30. cbn [fst snd]. intros [Hx Hy].
  unfold raw_box, np.divide4, box_has_side.
  destruct (coord_ok_parts x1 (coord_ok_5_30 x1 Hx)) as [_ Hsx].
  destruct (coord_ok_parts y1 (coord_ok_5_30 y1 Hy)) as [_ Hsy].
  split; assumption.
Qed.

Lemma raw_in_canvas (size : Z) (c : Z * Z) :
  50 <= size -> in_5_30 c -> raw_box_in_canvas size (raw_box c).
Proof.
  destruct c as [x1 y1]. unfold in_5_30, raw_box_in_canvas, raw_box.
  cbn [fst snd]. lia.
Qed.

(* ================================================================= *)
(** ** What a call of [generate_sample] returns *)

Section SampleFacts.

Context {R : Type} `{RandomSource R}.
Variable ellipse_cover : Z * Z * Z * Z -> Z -> Z -> bool.
Variable g : Globals.

(** With a negative global the call raises before the loop starts. *)
Lemma generate_sample_raises (s : R) :
  IMG_SIZE g < 0 \/ NUM_CLASSES g < 0 ->
  generate_sample ellipse_cover g s = Raise ValueError.
Proof.
  intros Hneg. unfold generate_sample, Image.new, np.zeros.
  destruct (Z.ltb_spec (IMG_SIZE g) 0) as [HS|HS].
  - reflexivity.
  - destruct (Z.ltb_spec (NUM_CLASSES g) 0) as [HK|HK].
    + reflexivity.
    + lia.
Qed.

(** Whatever a call returns is the closed form of [generate_sample_eq]. *)
Lemma generate_sample_inv (s s' : R) (img : ImageArray) (labels : list float)
      (bboxes : list Box) :
  generate_sample ellipse_cover g s = Ok ((img, labels, bboxes), s') ->
  (0 <= IMG_SIZE g /\ 0 <= NUM_CLASSES g) /\
  img = image_to_array
          (render_from ellipse_cover 0
             (fst (draws (Z.to_nat (NUM_CLASSES g)) s)) (blank (IMG_SIZE g))) /\
  labels = repeat PrimFloat.one (Z.to_nat (NUM_CLASSES g)) /\
  bboxes = map (fun c => np.divide4 (raw_box c) (IMG_SIZE g))
               (fst (draws (Z.to_nat (NUM_CLASSES g)) s)) /\
  s' = snd (draws (Z.to_nat (NUM_CLASSES g)) s).
Proof.
  intros Hrun.
  assert (Hg : 0 <= IMG_SIZE g /\ 0 <= NUM_CLASSES g).
  { destruct (Z.lt_ge_cases (IMG_SIZE g) 0) as [HS|HS];
      [rewrite generate_sample_raises in Hrun by lia; discriminate|].
    destruct (Z.lt_ge_cases (NUM_CLASSES g) 0) as [HK|HK];
      [rewrite generate_sample_raises in Hrun by lia; discriminate|].
    split; assumption. }
  split; [exact Hg|].
  destruct Hg as [HS HK].
  rewrite (generate_sample_eq ellipse_cover g s HS HK) in Hrun.
  injection Hrun as <- <- <- <-. repeat split; reflexivity.
Qed.

End SampleFacts.

(** C1 (as amended): in every call of [generate_sample], for whatever
    IMG_SIZE, the x1 and y1 of each of the NUM_CLASSES iterations are the
    results of two successive [randint(5, 30)] calls, x1 first: each lies in
    the closed range [5, 30], so x1 + 20 and y1 + 20 are at most 50, and
    the returned boxes are these coordinates divided by IMG_SIZE. *)
Theorem generate_sample_draws_5_30 {R : Type} `{RandomSource R}
  (ellipse_cover : Z * Z * Z * Z -> Z -> Z -> bool) (g : Globals)
  (s s' : R) (img : ImageArray) (labels : list float) (bboxes : list Box) :
  generate_sample ellipse_cover g s = Ok ((img, labels, bboxes), s') ->
  let cs := fst (draws (Z.to_nat (NUM_CLASSES g)) s) in
  length cs = Z.to_nat (NUM_CLASSES g) /\
  bboxes = map (fun c => np.divide4 (raw_box c) (IMG_SIZE g)) cs /\
  Forall (fun c => (5 <= fst c <= 30 /\ 5 <= snd c <= 30) /\
                   (fst c + 20 <= 50 /\ snd c + 20 <= 50)) cs.
Proof.
  intros Hrun cs.
  destruct (generate_sample_inv _ _ _ _ _ _ _ Hrun) as (_ & _ & _ & Hb & _).
  split; [apply draws_length|]. split; [exact Hb|].
  pose proof (draws_range (Z.to_nat (NUM_CLASSES g)) s) as Hr.
  fold cs in Hr. revert Hr. apply Forall_impl.
  intros c Hc. unfold in_5_30 in Hc. lia.
Qed.

(** C2: every box of a sample the notebook's [generate_sample] returns is
    well-formed and in bounds, in pixels (0 <= x1 < x2 <= 64 and the same
    for y) and after the division by 64 (0 <= x1 < x2 <= 1, the same for y,
    with float64 comparisons). *)
Theorem generate_sample_boxes_in_bounds {R : Type} `{RandomSource R}
  (ellipse_cover : Z * Z * Z * Z -> Z -> Z -> bool)
  (s s' : R) (img : ImageArray) (labels : list float) (bboxes : list Box) :
  generate_sample ellipse_cover notebook s = Ok ((img, labels, bboxes), s') ->
  exists raws : list (Z * Z * Z * Z),
    length raws = Z.to_nat (NUM_CLASSES notebook) /\
    bboxes = map (fun b => np.divide4 b (IMG_SIZE notebook)) raws /\
    Forall (raw_box_in_canvas (IMG_SIZE notebook)) raws /\
    Forall box_in_unit_square bboxes.
Proof.
  intros Hrun.
  destruct (generate_sample_inv _ _ _ _ _ _ _ Hrun) as (_ & _ & _ & Hb & _).
  pose proof (draws_range (Z.to_nat (NUM_CLASSES notebook)) s) as Hr.
  pose proof (draws_length (Z.to_nat (NUM_CLASSES notebook)) s) as Hl.
  set (cs := fst (draws (Z.to_nat (NUM_CLASSES notebook)) s)) in *.
  exists (map raw_box cs). repeat split.
  - now rewrite length_map.
  - now rewrite map_map.
  - apply Forall_map. revert Hr. apply Forall_impl.
    intros c Hc. apply raw_in_canvas; [cbn; lia | exact Hc].
  - rewrite Hb. apply Forall_map. revert Hr. apply Forall_impl.
    intros c Hc. now apply normalised_in_unit_square.
Qed.

(** C3: every box of a sample the notebook's [generate_sample] returns has
    both sides exactly 20/64 in float64: x2 - x1 == 20/IMG_SIZE and
    y2 - y1 == 20/IMG_SIZE, wherever the shape is. *)
Theorem generate_sample_boxes_fixed_side {R : Type} `{RandomSource R}
  (ellipse_cover : Z * Z * Z * Z -> Z -> Z -> bool)
  (s s' : R) (img : ImageArray) (labels : list float) (bboxes : list Box) :
  generate_sample ellipse_cover notebook s = Ok ((img, labels, bboxes), s') ->
  length bboxes = Z.to_nat (NUM_CLASSES notebook) /\
  Forall (box_has_side 20 (IMG_SIZE notebook)) bboxes.
Proof.
  intros Hrun.
  destruct (generate_sample_inv _ _ _ _ _ _ _ Hrun) as (_ & _ & _ & Hb & _).
  pose proof (draws_range (Z.to_nat (NUM_CLASSES notebook)) s) as Hr.
  pose proof (draws_length (Z.to_nat (NUM_CLASSES notebook)) s) as Hl.
  rewrite Hb. split.
  - now rewrite length_map.
  - apply Forall_map. revert Hr. apply Forall_impl.
    intros c Hc. now apply normalised_side.
Qed.

(** C4: for any globals, the labels of a returned sample are the all-ones
    vector of length NUM_CLASSES: labels[k] = 1 for every class k. *)
Theorem generate_sample_labels_all_ones {R : Type} `{RandomSource R}
  (ellipse_cover : Z * Z * Z * Z -> Z -> Z -> bool) (g : Globals)
  (s s' : R) (img : ImageArray) (labels : list float) (bboxes : list Box) :
  generate_sample ellipse_cover g s = Ok ((img, labels, bboxes), s') ->
  labels = repeat PrimFloat.one (Z.to_nat (NUM_CLASSES g)) /\
  Z.of_nat (length labels) = NUM_CLASSES g /\
  forall k : Z, 0 <= k < NUM_CLASSES g ->
    nth (Z.to_nat k) labels PrimFloat.zero = PrimFloat.one.
Proof.
  intros Hrun.
  destruct (generate_sample_inv _ _ _ _ _ _ _ Hrun) as ((_ & HK) & _ & Hl & _).
  split; [exact Hl|]. subst labels. split.
  - rewrite repeat_length. lia.
  - intros k Hk. apply nth_repeat_lt. lia.
Qed.

(** C6: with IMG_SIZE = 64 and NUM_CLASSES = 2, when the random source
    yields x1 = 10, y1 = 10 for class 0 and x1 = 20, y1 = 15 for class 1,
    the returned boxes are (0.15625, 0.15625, 0.46875, 0.46875) and
    (0.3125, 0.234375, 0.625, 0.546875). *)
Theorem generate_sample_example_boxes {R : Type} `{RandomSource R}
  (ellipse_cover : Z * Z * Z * Z -> Z -> Z -> bool) (s s1 s2 s3 s4 : R) :
  next_in 5 30 s = (10, s1) ->
  next_in 5 30 s1 = (10, s2) ->
  next_in 5 30 s2 = (20, s3) ->
  next_in 5 30 s3 = (15, s4) ->
  exists (img : ImageArray) (labels : list float),
    generate_sample ellipse_cover notebook s
    = Ok ((img, labels,
           [(0.15625, 0.15625, 0.46875, 0.46875)%float;
            (0.3125, 0.234375, 0.625, 0.546875)%float]), s4).
Proof.
  intros H1 H2 H3 H4.
  assert (Hd : draws (Z.to_nat (NUM_CLASSES notebook)) s
               = ([(10, 10); (20, 15)], s4)).
  { change (Z.to_nat (NUM_CLASSES notebook)) with 2%nat.
    cbn [draws]. unfold draw_pair. now rewrite H1, H2, H3, H4. }
  do 2 eexists.
  rewrite generate_sample_eq by (cbn; lia).
  rewrite Hd. cbn [fst snd map]. reflexivity.
Qed.

(** C8: under the notebook's constants [generate_sample] returns a sample
    in every state of the random source; no call raises. *)
Theorem generate_sample_never_raises {R : Type} `{RandomSource R}
  (ellipse_cover : Z * Z * Z * Z -> Z -> Z -> bool) (s : R) :
  (exists (smp : Sample) (s' : R),
     generate_sample ellipse_cover notebook s = Ok (smp, s')) /\
  (forall e : PyError, generate_sample ellipse_cover notebook s <> Raise e).
Proof.
  rewrite generate_sample_eq by (cbn; lia).
  split.
  - do 2 eexists. reflexivity.
  - intros e He. discriminate He.
Qed.

(* ================================================================= *)
(** ** Pixels *)

Lemma imap_from_length {A B} (f : nat -> A -> B) (l : list A) :
  forall k, length (imap_from k f l) = length l.
Proof.
  induction l as [|a l IH]; intros k; simpl.
  - reflexivity.
  - now rewrite IH.
Qed.

Lemma imap_from_nth {A B} (f : nat -> A -> B) (l : list A) (d : A) (d' : B) :
  forall k i, (i < length l)%nat ->
    nth i (imap_from k f l) d' = f (k + i)%nat (nth i l d).
Proof.
  induction l as [|a l IH]; intros k i Hi; simpl in Hi.
  - lia.
  - destruct i as [|i]; simpl.
    + now rewrite Nat.add_0_r.
    + rewrite IH by lia. f_equal. lia.
Qed.

Lemma paint_length (cover : Z -> Z -> bool) (c : Pixel) (img : PILImage) :
  length (paint cover c img) = length img.
Proof. apply imap_from_length. Qed.

Lemma paint_row_length (cover : Z -> Z -> bool) (c : Pixel) (img : PILImage)
      (y : nat) :
  (y < length img)%nat ->
  length (nth y (paint cover c img) []) = length (nth y img []).
Proof.
  intros Hy. unfold paint, imap.
  rewrite (imap_from_nth _ img [] []) by exact Hy.
  apply imap_from_length.
Qed.

(** A drawing call replaces exactly the covered pixels. *)
Lemma paint_getpixel (cover : Z -> Z -> bool) (c : Pixel) (img : PILImage)
      (x y : nat) :
  (y < length img)%nat -> (x < length (nth y img []))%nat ->
  getpixel (paint cover c img) x y
  = if cover (Z.of_nat x) (Z.of_nat y) then c else getpixel img x y.
Proof.
  intros Hy Hx. unfold getpixel, paint, imap.
  rewrite (imap_from_nth _ img [] []) by exact Hy.
  rewrite (imap_from_nth _ (nth y img []) black black) by exact Hx.
  reflexivity.
Qed.

Lemma blank_length (size : Z) : length (blank size) = Z.to_nat size.
Proof. apply repeat_length. Qed.

Lemma blank_row (size : Z) (y : nat) :
  (y < Z.to_nat size)%nat ->
  nth y (blank size) [] = repeat black (Z.to_nat size).
Proof. intros Hy. unfold blank. now apply nth_repeat_lt. Qed.

Lemma blank_getpixel (size : Z) (x y : nat) :
  (y < Z.to_nat size)%nat -> (x < Z.to_nat size)%nat ->
  getpixel (blank size) x y = black.
Proof.
  intros Hy Hx. unfold getpixel. rewrite blank_row by exact Hy.
  now apply nth_repeat_lt.
Qed.

Lemma image_to_array_pixel (img : PILImage) (x y : Z) :
  (Z.to_nat y < length img)%nat ->
  (Z.to_nat x < length (nth (Z.to_nat y) img []))%nat ->
  pixel_at (image_to_array img) x y
  = channels (getpixel img (Z.to_nat x) (Z.to_nat y)).
Proof.
  intros Hy Hx. unfold pixel_at, image_to_array, getpixel.
  set (f := fun p : Pixel =>
              let '(r, g, b) := p in
              [scale_channel r; scale_channel g; scale_channel b]).
  rewrite (nth_indep (map (map f) img) [] (map f [])) by (now rewrite length_map).
  rewrite (map_nth (map f) img []).
  rewrite (nth_indep (map f _) [] (f black)) by (now rewrite length_map).
  rewrite (map_nth f _ black). reflexivity.
Qed.

(** The notebook's image, pixel by pixel: blue where the class-1 ellipse
    covers, else red where the class-0 rectangle covers, else black. *)
Lemma notebook_pixel (ellipse_cover : Z * Z * Z * Z -> Z -> Z -> bool)
      (c0 c1 : Z * Z) (x y : Z) :
  0 <= x < 64 -> 0 <= y < 64 ->
  pixel_at (image_to_array
              (render_from ellipse_cover 0 [c0; c1] (blank (IMG_SIZE notebook))))
           x y
  = channels (if ellipse_cover (raw_box c1) x y then blue
              else if rectangle_cover (raw_box c0) x y then red
                   else black).
Proof.
  intros Hx Hy.
  change (render_from ellipse_cover 0 [c0; c1] (blank (IMG_SIZE notebook)))
    with (paint (ellipse_cover (raw_box c1)) blue
            (paint (rectangle_cover (raw_box c0)) red (blank 64))).
  assert (Hyn : (Z.to_nat y < Z.to_nat 64)%nat) by lia.
  assert (Hxn : (Z.to_nat x < Z.to_nat 64)%nat) by lia.
  assert (Hrow : length (nth (Z.to_nat y) (blank 64) []) = Z.to_nat 64)
    by (rewrite blank_row by exact Hyn; apply repeat_length).
  rewrite image_to_array_pixel.
  - rewrite paint_getpixel.
    + rewrite paint_getpixel.
      * rewrite blank_getpixel by assumption.
        rewrite !Z2Nat.id by lia. reflexivity.
      * now rewrite blank_length.
      * now rewrite Hrow.
    + now rewrite paint_length, blank_length.
    + rewrite paint_row_length by (now rewrite blank_length). now rewrite Hrow.
  - now rewrite !paint_length, blank_length.
  - rewrite paint_row_length by (now rewrite paint_length, blank_length).
    rewrite paint_row_length by (now rewrite blank_length). now rewrite Hrow.
Qed.

(** C9: in the notebook's [generate_sample] the class-0 rectangle is drawn
    before the class-1 ellipse, so every pixel of the canvas that both
    shapes cover is blue (0, 0, 1) in the returned image. *)
Theorem generate_sample_ellipse_over_rectangle {R : Type} `{RandomSource R}
  (ellipse_cover : Z * Z * Z * Z -> Z -> Z -> bool)
  (s s' : R) (img : ImageArray) (labels : list float) (bboxes : list Box)
  (c0 c1 : Z * Z) (x y : Z) :
  generate_sample ellipse_cover notebook s = Ok ((img, labels, bboxes), s') ->
  fst (draws 2 s) = [c0; c1] ->
  0 <= x < IMG_SIZE notebook -> 0 <= y < IMG_SIZE notebook ->
  rectangle_cover (raw_box c0) x y = true ->
  ellipse_cover (raw_box c1) x y = true ->
  img = image_to_array
          (paint (ellipse_cover (raw_box c1)) blue
             (paint (rectangle_cover (raw_box c0)) red
                (blank (IMG_SIZE notebook)))) /\
  pixel_at img x y = [0; 0; 1]%float.
Proof.
  intros Hrun Hcs Hx Hy _ Hell.
  destruct (generate_sample_inv _ _ _ _ _ _ _ Hrun) as (_ & Himg & _).
  change (Z.to_nat (NUM_CLASSES notebook)) with 2%nat in Himg.
  rewrite Hcs in Himg. subst img.
  split; [reflexivity|].
  rewrite notebook_pixel by assumption.
  rewrite Hell. reflexivity.
Qed.

(* ================================================================= *)
(** ** The loop of [create_dataset] *)

Section DatasetFacts.

Context {R : Type} `{RandomSource R}.
Variable ellipse_cover : Z * Z * Z * Z -> Z -> Z -> bool.
Variable g : Globals.
Hypothesis size_ok : 0 <= IMG_SIZE g.
Hypothesis classes_ok : 0 <= NUM_CLASSES g.

Let K : nat := Z.to_nat (NUM_CLASSES g).

Lemma after_sample_eq (s : R) :
  after_sample ellipse_cover g s = snd (draws K s).
Proof.
  unfold after_sample.
  now rewrite generate_sample_eq by assumption.
Qed.

Lemma generate_sample_after (s : R) :
  exists smp : Sample,
    generate_sample ellipse_cover g s = Ok (smp, after_sample ellipse_cover g s).
Proof.
  unfold after_sample.
  rewrite generate_sample_eq by assumption. eexists. reflexivity.
Qed.

Lemma runs_length (n : nat) :
  forall s : R, length (runs ellipse_cover g n s) = n.
Proof.
  induction n as [|n IH]; intros s; cbn [runs].
  - reflexivity.
  - rewrite generate_sample_eq by assumption. cbn [length]. now rewrite IH.
Qed.

(** Entry [i] of [runs] is what call number [i] returns. *)
Lemma runs_nth (n : nat) :
  forall (s : R) (i : nat) (d : Sample), (i < n)%nat ->
    generate_sample ellipse_cover g (call_state ellipse_cover g i s)
    = Ok (nth i (runs ellipse_cover g n s) d,
          call_state ellipse_cover g (S i) s).
Proof.
  induction n as [|n IH]; intros s i d Hi; [lia|].
  cbn [runs].
  destruct (generate_sample_after s) as [smp Hsmp].
  rewrite Hsmp.
  destruct i as [|i].
  - cbn [call_state nth]. exact Hsmp.
  - cbn [nth]. change (call_state ellipse_cover g (S i) s)
      with (call_state ellipse_cover g i (after_sample ellipse_cover g s)).
    change (call_state ellipse_cover g (S (S i)) s)
      with (call_state ellipse_cover g (S i) (after_sample ellipse_cover g s)).
    apply IH. lia.
Qed.

(** The loop appends one sample per iteration, whatever it iterates over. *)
Lemma create_dataset_loop (xs : list Z) :
  forall (X : list ImageArray) (Yc : list (list float)) (Yb : list (list Box))
         (s : R),
    for_each xs
      (fun _ (acc : Dataset) =>
         let '(X, y_cls, y_bbox) := acc in
         ' (img, labels, bboxes) <- generate_sample ellipse_cover g ;;
         ret (X ++ [img], y_cls ++ [labels], y_bbox ++ [bboxes]))
      (X, Yc, Yb) s
    = Ok ((X ++ map sample_image (runs ellipse_cover g (length xs) s),
           Yc ++ map sample_labels (runs ellipse_cover g (length xs) s),
           Yb ++ map sample_boxes (runs ellipse_cover g (length xs) s)),
          call_state ellipse_cover g (length xs) s).
Proof.
  induction xs as [|x xs IH]; intros X Yc Yb s.
  - cbn [for_each length runs call_state map]. now rewrite !app_nil_r.
  - cbn [for_each length runs call_state].
    destruct (generate_sample_after s) as [[[img labels] bboxes] Hsmp].
    unfold bind at 1. unfold bind at 1. rewrite Hsmp.
    unfold ret at 1. rewrite IH.
    cbn [map sample_image sample_labels sample_boxes fst snd].
    now rewrite <- !app_assoc.
Qed.

Lemma create_dataset_eq (n : Z) (s : R) :
  create_dataset ellipse_cover g n s
  = Ok ((map sample_image (runs ellipse_cover g (Z.to_nat n) s),
         map sample_labels (runs ellipse_cover g (Z.to_nat n) s),
         map sample_boxes (runs ellipse_cover g (Z.to_nat n) s)),
        call_state ellipse_cover g (Z.to_nat n) s).
Proof.
  unfold create_dataset. rewrite create_dataset_loop.
  unfold range. now rewrite length_map, length_seq.
Qed.

(** [n] calls advance the source by [n * NUM_CLASSES] pairs of draws. *)
Lemma call_state_draws (n : nat) :
  forall s : R, call_state ellipse_cover g n s = snd (draws (n * K) s).
Proof.
  induction n as [|n IH]; intros s.
  - reflexivity.
  - cbn [call_state Nat.mul]. rewrite IH, after_sample_eq.
    now rewrite draws_app.
Qed.

(** The closed form of [runs]: each sample from its own chunk of draws. *)
Lemma runs_S (n : nat) (s : R) :
  runs ellipse_cover g (S n) s
  = (image_to_array
       (render_from ellipse_cover 0 (fst (draws K s)) (blank (IMG_SIZE g))),
     repeat PrimFloat.one K,
     map (fun c => np.divide4 (raw_box c) (IMG_SIZE g)) (fst (draws K s)))
    :: runs ellipse_cover g n (snd (draws K s)).
Proof.
  cbn [runs]. now rewrite generate_sample_eq by assumption.
Qed.

End DatasetFacts.

(** Entry [i] of the three columns is entry [i] of the list of samples. *)
Lemma nth_components (l : list Sample) :
  forall i : nat,
    (nth i (map sample_image l) [], nth i (map sample_labels l) [],
     nth i (map sample_boxes l) [])
    = nth i l ([], [], []).
Proof.
  induction l as [|[[img labels] bboxes] l IH]; intros [|i]; cbn; auto.
Qed.

Lemma app_eq_same_length {A} (l1 l1' l2 l2' : list A) :
  length l1 = length l1' -> l1 ++ l2 = l1' ++ l2' -> l1 = l1' /\ l2 = l2'.
Proof.
  revert l1'. induction l1 as [|a l1 IH]; intros [|a' l1'] Hlen Heq;
    simpl in *; try discriminate.
  - auto.
  - injection Heq as -> Heq. destruct (IH l1' ltac:(lia) Heq) as [-> ->]. auto.
Qed.

(** Two runs, on any two random sources, that draw the same values return
    the same samples. *)
Lemma runs_same_draws {R1 R2 : Type} `{RandomSource R1} `{RandomSource R2}
      (ellipse_cover : Z * Z * Z * Z -> Z -> Z -> bool) (g : Globals) :
  0 <= IMG_SIZE g -> 0 <= NUM_CLASSES g ->
  forall (n : nat) (s1 : R1) (s2 : R2),
    fst (draws (n * Z.to_nat (NUM_CLASSES g)) s1)
    = fst (draws (n * Z.to_nat (NUM_CLASSES g)) s2) ->
    runs ellipse_cover g n s1 = runs ellipse_cover g n s2.
Proof.
  intros HS HK. induction n as [|n IH]; intros s1 s2 Hd.
  - reflexivity.
  - rewrite !runs_S by assumption.
    cbn [Nat.mul] in Hd. rewrite !draws_app in Hd. cbn [fst] in Hd.
    apply app_eq_same_length in Hd; [|now rewrite !draws_length].
    destruct Hd as [Hhead Htail].
    rewrite Hhead. f_equal. now apply IH.
Qed.

(* ================================================================= *)
(** ** What a call of [create_dataset] returns *)

(** C5: for every positive N, [create_dataset(N)] calls [generate_sample]
    exactly N times and returns three sequences of length N, entry i of
    each being what call number i returned, in call order. *)
Theorem create_dataset_aligned {R : Type} `{RandomSource R}
  (ellipse_cover : Z * Z * Z * Z -> Z -> Z -> bool) (g : Globals)
  (N : Z) (s : R) :
  0 <= IMG_SIZE g -> 0 <= NUM_CLASSES g -> 0 < N ->
  exists (X : list ImageArray) (Yc : list (list float)) (Yb : list (list Box)),
    create_dataset ellipse_cover g N s
    = Ok ((X, Yc, Yb), call_state ellipse_cover g (Z.to_nat N) s) /\
    (Z.of_nat (length X) = N /\ Z.of_nat (length Yc) = N /\
     Z.of_nat (length Yb) = N) /\
    forall i : nat, (i < Z.to_nat N)%nat ->
      generate_sample ellipse_cover g (call_state ellipse_cover g i s)
      = Ok ((nth i X [], nth i Yc [], nth i Yb []),
            call_state ellipse_cover g (S i) s).
Proof.
  intros HS HK HN.
  eexists _, _, _. split; [apply create_dataset_eq; assumption|].
  rewrite !length_map, runs_length by assumption.
  split; [lia|].
  intros i Hi.
  rewrite (runs_nth ellipse_cover g HS HK (Z.to_nat N) s i ([], [], []) Hi).
  now rewrite nth_components.
Qed.

(** C7: [generate_sample] and [create_dataset] are functions of the values
    the random source hands out and of nothing else.  Two runs of
    [create_dataset(n)] whose sources hand out the same draws (in
    particular two runs from the same state of the same source) return the
    same images, labels and boxes; each run leaves its source advanced by
    the n * NUM_CLASSES pairs it drew, and one call of [generate_sample]
    leaves it advanced by NUM_CLASSES pairs. *)
Theorem create_dataset_deterministic {R1 R2 : Type}
  `{RandomSource R1} `{RandomSource R2}
  (ellipse_cover : Z * Z * Z * Z -> Z -> Z -> bool) (g : Globals)
  (n : Z) (s1 : R1) (s2 : R2) :
  0 <= IMG_SIZE g -> 0 <= NUM_CLASSES g ->
  fst (draws (Z.to_nat n * Z.to_nat (NUM_CLASSES g)) s1)
  = fst (draws (Z.to_nat n * Z.to_nat (NUM_CLASSES g)) s2) ->
  (exists D : Dataset,
     create_dataset ellipse_cover g n s1
     = Ok (D, snd (draws (Z.to_nat n * Z.to_nat (NUM_CLASSES g)) s1)) /\
     create_dataset ellipse_cover g n s2
     = Ok (D, snd (draws (Z.to_nat n * Z.to_nat (NUM_CLASSES g)) s2))) /\
  (exists smp : Sample,
     generate_sample ellipse_cover g s1
     = Ok (smp, snd (draws (Z.to_nat (NUM_CLASSES g)) s1))).
Proof.
  intros HS HK Hd. split.
  - eexists. rewrite !create_dataset_eq by assumption.
    rewrite !call_state_draws by assumption.
    rewrite (runs_same_draws ellipse_cover g HS HK (Z.to_nat n) s1 s2 Hd).
    split; reflexivity.
  - eexists. apply generate_sample_eq; assumption.
Qed.

(** C10: [create_dataset] does not check that its count is positive: for
    every n >= 0 it returns, without raising, three sequences of length n,
    entry i of each being what call number i of [generate_sample] returned;
    for n = 0 these are three empty sequences and no draw is made. *)
Theorem create_dataset_accepts_zero {R : Type} `{RandomSource R}
  (ellipse_cover : Z * Z * Z * Z -> Z -> Z -> bool) (g : Globals)
  (n : Z) (s : R) :
  0 <= IMG_SIZE g -> 0 <= NUM_CLASSES g -> 0 <= n ->
  create_dataset ellipse_cover g 0 s = Ok (([], [], []), s) /\
  exists (X : list ImageArray) (Yc : list (list float)) (Yb : list (list Box))
         (s' : R),
    create_dataset ellipse_cover g n s = Ok ((X, Yc, Yb), s') /\
    (Z.of_nat (length X) = n /\ Z.of_nat (length Yc) = n /\
     Z.of_nat (length Yb) = n) /\
    forall i : nat, (i < Z.to_nat n)%nat ->
      exists si si' : R,
        generate_sample ellipse_cover g si
        = Ok ((nth i X [], nth i Yc [], nth i Yb []), si').
Proof.
  intros HS HK Hn. split; [reflexivity|].
  eexists _, _, _, _. split; [apply create_dataset_eq; assumption|].
  rewrite !length_map, runs_length by assumption.
  split; [lia|].
  intros i Hi.
  exists (call_state ellipse_cover g i s), (call_state ellipse_cover g (S i) s).
  rewrite (runs_nth ellipse_cover g HS HK (Z.to_nat n) s i ([], [], []) Hi).
  now rewrite nth_components.
Qed.

(* ================================================================= *)
(** ** The theorems on concrete runs *)

(** C1 as written fails: [5, IMG_SIZE - 35] is [5, 29] for the notebook,
    but the call on [edge_tape] draws x1 = 30: the class-0 box is
    (30, 5, 50, 25) / 64, and x2 = 50 is beyond IMG_SIZE - 15 = 49. *)
Lemma generate_sample_x1_can_be_30 :
  exists (img : ImageArray) (labels : list float) (b1 : Box) (s' : Tape),
    generate_sample inscribed_ellipse notebook edge_tape
    = Ok ((img, labels, [(0.46875, 0.078125, 0.78125, 0.390625)%float; b1]), s') /\
    fst (draw_pair edge_tape) = (30, 5) /\
    np.divide4 (raw_box (30, 5)) (IMG_SIZE notebook)
    = (0.46875, 0.078125, 0.78125, 0.390625)%float /\
    (30 <=? IMG_SIZE notebook - 35) = false /\
    (30 + 20 <=? IMG_SIZE notebook - 15) = false.
Proof.
  do 4 eexists.
  rewrite generate_sample_eq by (cbn; lia).
  repeat split; vm_compute; reflexivity.
Qed.

Lemma generate_sample_draws_5_30_witness :
  length (fst (draws 2 demo_tape)) = 2%nat /\
  demo_boxes
  = map (fun c => np.divide4 (raw_box c) 64) (fst (draws 2 demo_tape)) /\
  Forall (fun c => (5 <= fst c <= 30 /\ 5 <= snd c <= 30) /\
                   (fst c + 20 <= 50 /\ snd c + 20 <= 50))
         (fst (draws 2 demo_tape)).
Proof.
  apply (generate_sample_draws_5_30 inscribed_ellipse notebook
           demo_tape (demo_after demo_tape) demo_image [1; 1]%float demo_boxes).
  vm_compute. reflexivity.
Defined.

Lemma generate_sample_boxes_in_bounds_witness :
  exists raws : list (Z * Z * Z * Z),
    length raws = 2%nat /\
    demo_boxes = map (fun b => np.divide4 b 64) raws /\
    Forall (raw_box_in_canvas 64) raws /\
    Forall box_in_unit_square demo_boxes.
Proof.
  apply (generate_sample_boxes_in_bounds inscribed_ellipse
           demo_tape (demo_after demo_tape) demo_image [1; 1]%float demo_boxes).
  vm_compute. reflexivity.
Defined.

Lemma generate_sample_boxes_fixed_side_witness :
  length demo_boxes = 2%nat /\ Forall (box_has_side 20 64) demo_boxes.
Proof.
  apply (generate_sample_boxes_fixed_side inscribed_ellipse
           demo_tape (demo_after demo_tape) demo_image [1; 1]%float demo_boxes).
  vm_compute. reflexivity.
Defined.

Lemma generate_sample_labels_all_ones_witness :
  [1; 1]%float = repeat PrimFloat.one 2 /\
  Z.of_nat (length [1; 1]%float) = 2 /\
  forall k : Z, 0 <= k < 2 ->
    nth (Z.to_nat k) [1; 1]%float PrimFloat.zero = PrimFloat.one.
Proof.
  apply (generate_sample_labels_all_ones inscribed_ellipse notebook
           demo_tape (demo_after demo_tape) demo_image [1; 1]%float demo_boxes).
  vm_compute. reflexivity.
Defined.

Lemma create_dataset_aligned_witness :
  exists (X : list ImageArray) (Yc : list (list float)) (Yb : list (list Box)),
    create_dataset inscribed_ellipse notebook 1 demo_tape
    = Ok ((X, Yc, Yb), call_state inscribed_ellipse notebook 1 demo_tape) /\
    (Z.of_nat (length X) = 1 /\ Z.of_nat (length Yc) = 1 /\
     Z.of_nat (length Yb) = 1) /\
    forall i : nat, (i < 1)%nat ->
      generate_sample inscribed_ellipse notebook
                      (call_state inscribed_ellipse notebook i demo_tape)
      = Ok ((nth i X [], nth i Yc [], nth i Yb []),
            call_state inscribed_ellipse notebook (S i) demo_tape).
Proof.
  apply (create_dataset_aligned inscribed_ellipse notebook 1 demo_tape);
    cbn; lia.
Defined.

Lemma generate_sample_example_boxes_witness :
  exists (img : ImageArray) (labels : list float),
    generate_sample inscribed_ellipse notebook demo_tape
    = Ok ((img, labels,
           [(0.15625, 0.15625, 0.46875, 0.46875)%float;
            (0.3125, 0.234375, 0.625, 0.546875)%float]), demo_after demo_tape).
Proof.
  apply (generate_sample_example_boxes inscribed_ellipse demo_tape
           {| raw := raw demo_tape; pos := 1 |}
           {| raw := raw demo_tape; pos := 2 |}
           {| raw := raw demo_tape; pos := 3 |}
           (demo_after demo_tape));
    reflexivity.
Defined.

Lemma create_dataset_deterministic_witness :
  (exists D : Dataset,
     create_dataset inscribed_ellipse notebook 1 demo_tape
     = Ok (D, snd (draws 2 demo_tape)) /\
     create_dataset inscribed_ellipse notebook 1 demo_tape'
     = Ok (D, snd (draws 2 demo_tape'))) /\
  (exists smp : Sample,
     generate_sample inscribed_ellipse notebook demo_tape
     = Ok (smp, snd (draws 2 demo_tape))).
Proof.
  apply (create_dataset_deterministic inscribed_ellipse notebook 1
           demo_tape demo_tape').
  - cbn; lia.
  - cbn; lia.
  - vm_compute. reflexivity.
Defined.

Lemma generate_sample_ellipse_over_rectangle_witness :
  overlap_image
  = image_to_array
      (paint (inscribed_ellipse (raw_box (10, 10))) blue
         (paint (rectangle_cover (raw_box (10, 10))) red (blank 64))) /\
  pixel_at overlap_image 20 20 = [0; 0; 1]%float.
Proof.
  apply (generate_sample_ellipse_over_rectangle inscribed_ellipse
           overlap_tape (demo_after overlap_tape) overlap_image
           [1; 1]%float
           [(0.15625, 0.15625, 0.46875, 0.46875)%float;
            (0.15625, 0.15625, 0.46875, 0.46875)%float]
           (10, 10) (10, 10) 20 20).
  - vm_compute. reflexivity.
  - vm_compute. reflexivity.
  - cbn; lia.
  - cbn; lia.
  - reflexivity.
  - reflexivity.
Defined.

Lemma create_dataset_accepts_zero_witness :
  create_dataset inscribed_ellipse notebook 0 demo_tape
  = Ok (([], [], []), demo_tape) /\
  exists (X : list ImageArray) (Yc : list (list float)) (Yb : list (list Box))
         (s' : Tape),
    create_dataset inscribed_ellipse notebook 0 demo_tape
    = Ok ((X, Yc, Yb), s') /\
    (Z.of_nat (length X) = 0 /\ Z.of_nat (length Yc) = 0 /\
     Z.of_nat (length Yb) = 0) /\
    forall i : nat, (i < 0)%nat ->
      exists si si' : Tape,
        generate_sample inscribed_ellipse notebook si
        = Ok ((nth i X [], nth i Yc [], nth i Yb []), si').
Proof.
  apply (create_dataset_accepts_zero inscribed_ellipse notebook 0 demo_tape);
    cbn; lia.
Defined.

(* ================================================================= *)
(** ** More on [generate_sample]: errors, shape and colours of the image *)






Section RenderFacts.

Variable ellipse_cover : Z * Z * Z * Z -> Z -> Z -> bool.






End RenderFacts.









Lemma in_box_20_cover (x1 y1 x y : Z) :
  rectangle_cover (raw_box (x1, y1)) x y = in_box_20 x1 y1 x y.
Proof. reflexivity. Qed.

(** X5: in the notebook's image a pixel the ellipse does not cover is red
    exactly when it lies in the box x1 <= x <= x1 + 20, y1 <= y <= y1 + 20,
    both ends included (21 pixels a side), and black otherwise; and all
    pixels of that box are on the canvas, so the rectangle is never
    clipped. *)
Theorem generate_sample_rectangle_pixels {R : Type} `{RandomSource R}
  (ellipse_cover : Z * Z * Z * Z -> Z -> Z -> bool) (s : R) :
  exists (x1 y1 : Z) (c1 : Z * Z)
         (img : ImageArray) (labels : list float) (bboxes : list Box) (s' : R),
    fst (draws 2 s) = [(x1, y1); c1] /\
    generate_sample ellipse_cover notebook s = Ok ((img, labels, bboxes), s') /\
    (forall x y : Z, 0 <= x < 64 -> 0 <= y < 64 ->
       ellipse_cover (raw_box c1) x y = false ->
       pixel_at img x y
       = if in_box_20 x1 y1 x y then [1; 0; 0]%float else [0; 0; 0]%float) /\
    (forall x y : Z, in_box_20 x1 y1 x y = true -> 0 <= x < 64 /\ 0 <= y < 64).
Proof.
  pose proof (draws_length 2 s) as Hlen.
  pose proof (draws_range 2 s) as Hr.
  destruct (fst (draws 2 s)) as [|[x1 y1] [|c1 [|c2 rest]]] eqn:Hcs;
    cbn [length] in Hlen; try lia.
  exists x1, y1, c1. eexists _, _, _, _.
  split; [reflexivity|].
  split; [rewrite generate_sample_eq by (cbn; lia);
          change (Z.to_nat (NUM_CLASSES notebook)) with 2%nat;
          rewrite Hcs; reflexivity|].
  split.
  - intros x y Hx Hy Hell.
    rewrite notebook_pixel by assumption.
    rewrite Hell, in_box_20_cover.
    now destruct (in_box_20 x1 y1 x y).
  - intros x y Hbox. inversion Hr as [|c l Hc _]; subst.
    unfold in_5_30 in Hc. cbn [fst snd] in Hc.
    unfold in_box_20 in Hbox.
    apply andb_prop in Hbox. destruct Hbox as [Hbox Hy2].
    apply andb_prop in Hbox. destruct Hbox as [Hbox Hy1].
    apply andb_prop in Hbox. destruct Hbox as [Hx1 Hx2].
    apply Z.leb_le in Hx1, Hx2, Hy1, Hy2. lia.
Qed.

Lemma overflows_below_50 (size : Z) : 1 <= size < 50 -> overflows size = true.
Proof.
  intros Hs.
  assert (Hin : In size (map Z.of_nat (seq 1 49))).
  { apply in_map_iff. exists (Z.to_nat size). split; [lia|]. apply in_seq. lia. }
  assert (Hall : forallb overflows (map Z.of_nat (seq 1 49)) = true)
    by (vm_compute; reflexivity).
  rewrite forallb_forall in Hall. now apply Hall.
Qed.

(** X6: the canvas size is not checked against the shape size.  For every
    IMG_SIZE from 1 to 49 (and at least one class) [generate_sample] still
    returns, and for some state of the random source the class-0 box it
    returns has x2 = 50 / IMG_SIZE > 1, outside the unit square. *)
Theorem generate_sample_small_canvas_unchecked
  (ellipse_cover : Z * Z * Z * Z -> Z -> Z -> bool) (g : Globals) :
  1 <= IMG_SIZE g < 50 -> 1 <= NUM_CLASSES g ->
  exists (s : Tape) (img : ImageArray) (labels : list float)
         (x1 y1 x2 y2 : float) (others : list Box) (s' : Tape),
    generate_sample ellipse_cover g s
    = Ok ((img, labels, (x1, y1, x2, y2) :: others), s') /\
    PrimFloat.leb x2 1 = false /\
    ~ box_in_unit_square (x1, y1, x2, y2).
Proof.
  intros HS HK.
  exists edge_tape.
  assert (Hpair : draw_pair edge_tape
                  = ((30, 5), {| raw := raw edge_tape; pos := 2 |}))
    by reflexivity.
  destruct (Z.to_nat (NUM_CLASSES g)) as [|k] eqn:Hk; [lia|].
  destruct (draws k {| raw := raw edge_tape; pos := 2 |}) as [cs s2] eqn:Hrest.
  eexists _, _, _, _, _, _, _, _.
  split.
  - rewrite generate_sample_eq by lia. rewrite Hk.
    cbn [draws]. rewrite Hpair, Hrest.
    cbn [fst snd map raw_box np.divide4].
    reflexivity.
  - pose proof (overflows_below_50 (IMG_SIZE g) HS) as Ho.
    unfold overflows in Ho. apply negb_true_iff in Ho.
    change (30 + 20) with 50.
    split; [exact Ho|].
    unfold box_in_unit_square. intros [(_ & _ & Hx2) _].
    rewrite Ho in Hx2. discriminate.
Qed.

(* ================================================================= *)
(** ** More on [create_dataset]: counts, errors, composition, contents *)

(** X7: for a count of zero or below, [create_dataset] returns three empty
    sequences and leaves the random source as it was, whatever the globals
    are (negative ones included): [generate_sample] is never called. *)
Theorem create_dataset_nonpositive_count {R : Type} `{RandomSource R}
  (ellipse_cover : Z * Z * Z * Z -> Z -> Z -> bool) (g : Globals)
  (n : Z) (s : R) :
  n <= 0 ->
  create_dataset ellipse_cover g n s = Ok (([], [], []), s).
Proof.
  intros Hn. unfold create_dataset, range.
  replace (Z.to_nat n) with 0%nat by lia. reflexivity.
Qed.


Section DatasetComposition.

Context {R : Type} `{RandomSource R}.
Variable ellipse_cover : Z * Z * Z * Z -> Z -> Z -> bool.
Variable g : Globals.
Hypothesis size_ok : 0 <= IMG_SIZE g.
Hypothesis classes_ok : 0 <= NUM_CLASSES g.




Lemma runs_boxes (P : Box -> Prop) (n : nat) :
  (forall c, in_5_30 c -> P (np.divide4 (raw_box c) (IMG_SIZE g))) ->
  forall s : R,
    Forall (fun bs => length bs = Z.to_nat (NUM_CLASSES g) /\ Forall P bs)
           (map sample_boxes (runs ellipse_cover g n s)).
Proof.
  intros HP. induction n as [|n IH]; intros s.
  - constructor.
  - rewrite runs_S by assumption. cbn [map sample_boxes fst snd].
    constructor; [|apply IH]. split.
    + now rewrite length_map, draws_length.
    + apply Forall_map.
      pose proof (draws_range (Z.to_nat (NUM_CLASSES g)) s) as Hr.
      revert Hr. apply Forall_impl. exact HP.
Qed.

End DatasetComposition.



(** X11: every entry of the y_bbox that the notebook's [create_dataset]
    returns has NUM_CLASSES = 2 boxes, each inside the unit square and with
    both sides exactly 20/64. *)
Theorem create_dataset_boxes_in_bounds {R : Type} `{RandomSource R}
  (ellipse_cover : Z * Z * Z * Z -> Z -> Z -> bool) (n : Z) (s : R) :
  exists (X : list ImageArray) (Yc : list (list float)) (Yb : list (list Box))
         (s' : R),
    create_dataset ellipse_cover notebook n s = Ok ((X, Yc, Yb), s') /\
    Forall (fun bs => length bs = 2%nat /\
                      Forall (fun b => box_in_unit_square b /\
                                       box_has_side 20 64 b) bs) Yb.
Proof.
  eexists _, _, _, _.
  split; [apply create_dataset_eq; cbn; lia|].
  apply (runs_boxes ellipse_cover notebook ltac:(cbn; lia) ltac:(cbn; lia)
           (fun b => box_in_unit_square b /\ box_has_side 20 64 b)).
  intros c Hc. split.
  - now apply normalised_in_unit_square.
  - now apply normalised_side.
Qed.

(* ================================================================= *)
(** ** [plot_sample] *)

Lemma getitem_nat {A} (a : list A) (j : nat) (d : A) :
  getitem a (Z.of_nat j) d
  = if (j <? length a)%nat then Done (nth j a d) else Fails PlotIndexError.
Proof.
  unfold getitem.
  destruct (Nat.ltb_spec j (length a)) as [Hlt|Hge].
  - replace ((0 <=? Z.of_nat j) && (Z.of_nat j <? Z.of_nat (length a)))
      with true.
    + now rewrite Nat2Z.id.
    + symmetry. apply andb_true_intro. split.
      * apply Z.leb_le. lia.
      * apply Z.ltb_lt. lia.
  - replace (Z.of_nat j <? Z.of_nat (length a)) with false
      by (symmetry; apply Z.ltb_ge; lia).
    replace (Z.of_nat j <? 0) with false by (symmetry; apply Z.ltb_ge; lia).
    now rewrite !andb_false_r.
Qed.

Section PlotFacts.

Variable imshow_accepts : ImageArray -> bool.
Variable g : Globals.

(** One iteration for a class index inside [labels]. *)
Lemma plot_class_nat (labels : list float) (bboxes : list Box) (j : nat)
      (artists : list Artist) :
  (j < length labels)%nat ->
  plot_class g labels bboxes (Z.of_nat j) artists
  = if undrawable labels bboxes j then Fails PlotIndexError
    else Done (artists ++ overlay g labels bboxes j).
Proof.
  intros Hj. unfold plot_class, undrawable, overlay, class_artists.
  rewrite !getitem_nat.
  replace (j <? length labels)%nat with true
    by (symmetry; apply Nat.ltb_lt; exact Hj).
  cbn [and_then].
  destruct (truthy (nth j labels PrimFloat.zero)); cbn [andb].
  - destruct (Nat.leb_spec (length bboxes) j) as [Hb|Hb]; cbn [orb].
    + replace (j <? length bboxes)%nat with false
        by (symmetry; apply Nat.ltb_ge; exact Hb).
      reflexivity.
    + replace (j <? length bboxes)%nat with true
        by (symmetry; apply Nat.ltb_lt; exact Hb).
      cbn [and_then].
      destruct (multiply4 _ _) as [[[x1 y1] x2] y2].
      change (length colors) with 2%nat.
      change (length class_names) with 2%nat.
      destruct (Nat.leb_spec 2 j) as [H2|H2].
      * replace (j <? 2)%nat with false
          by (symmetry; apply Nat.ltb_ge; exact H2).
        reflexivity.
      * replace (j <? 2)%nat with true
          by (symmetry; apply Nat.ltb_lt; exact H2).
        cbn [and_then]. now rewrite <- app_assoc.
  - now rewrite app_nil_r.
Qed.

(** The loop over classes [i], ..., [i + m - 1]. *)
Lemma plot_loop_nat (labels : list float) (bboxes : list Box) (m : nat) :
  forall (i : nat) (artists : list Artist),
    (i + m <= length labels)%nat ->
    plot_loop g labels bboxes (map Z.of_nat (seq i m)) artists
    = if existsb (undrawable labels bboxes) (seq i m)
      then Fails PlotIndexError
      else Done (artists ++ flat_map (overlay g labels bboxes) (seq i m)).
Proof.
  induction m as [|m IH]; intros i artists Him.
  - cbn. now rewrite app_nil_r.
  - cbn [seq map plot_loop existsb flat_map].
    rewrite plot_class_nat by lia.
    destruct (undrawable labels bboxes i); cbn [orb and_then].
    + reflexivity.
    + rewrite IH by lia.
      destruct (existsb _ _); [reflexivity|]. now rewrite <- app_assoc.
Qed.

(** [plot_sample] in closed form. *)
Lemma plot_sample_eq (img : ImageArray) (labels : list float)
      (bboxes : list Box) :
  plot_sample imshow_accepts g img labels bboxes
  = if imshow_accepts img then
      if existsb (undrawable labels bboxes) (seq 0 (length labels))
      then Fails PlotIndexError
      else Done {| fig_image := img;
                   fig_artists :=
                     flat_map (overlay g labels bboxes) (seq 0 (length labels));
                   fig_axis := false |}
    else Fails ImshowTypeError.
Proof.
  unfold plot_sample. destruct (imshow_accepts img); [|reflexivity].
  unfold range. rewrite Nat2Z.id.
  rewrite plot_loop_nat by lia.
  now destruct (existsb _ _).
Qed.

End PlotFacts.

Lemma denormalises_offset (n : nat) :
  (n < 26)%nat -> denormalises (Z.of_nat (5 + n)).
Proof.
  intros Hn.
  do 26 (destruct n as [|n]; [vm_compute; repeat split; reflexivity|]).
  lia.
Qed.

Lemma denormalises_5_30 (x : Z) : 5 <= x <= 30 -> denormalises x.
Proof.
  intros Hx.
  replace x with (Z.of_nat (5 + Z.to_nat (x - 5))) by lia.
  apply denormalises_offset. lia.
Qed.

(** For a box the notebook's generator produced, [plot_sample] draws the
    rectangle at the very pixels the generator drew the shape at. *)
Lemma class_artists_normalised (bboxes : list Box) (cls : nat) (c : Z * Z) :
  in_5_30 c ->
  nth cls bboxes (PrimFloat.zero, PrimFloat.zero, PrimFloat.zero, PrimFloat.zero)
  = np.divide4 (raw_box c) 64 ->
  class_artists notebook bboxes cls = expected_artists cls c.
Proof.
  destruct c as [x1 y1]. unfold in_5_30. cbn [fst snd]. intros [Hx Hy] Hnth.
  unfold class_artists, expected_artists. rewrite Hnth.
  unfold raw_box, np.divide4, multiply4.
  change (IMG_SIZE notebook) with 64.
  destruct (denormalises_5_30 x1 Hx) as (Hx1 & Hx2 & Hxw & _).
  destruct (denormalises_5_30 y1 Hy) as (Hy1 & Hy2 & Hyw & Hy5).
  rewrite Hx1, Hx2, Hy1, Hy2, Hxw, Hyw, Hy5. reflexivity.
Qed.

Lemma overlay_length (g : Globals) (labels : list float) (bboxes : list Box)
      (cls : nat) :
  length (overlay g labels bboxes cls)
  = if truthy (nth cls labels PrimFloat.zero) then 2%nat else 0%nat.
Proof.
  unfold overlay, class_artists.
  destruct (truthy _); [|reflexivity].
  now destruct (multiply4 _ _) as [[[x1 y1] x2] y2].
Qed.

Lemma overlay_count (g : Globals) (bboxes : list Box) (suf : list float) :
  forall pre : list float,
    length (flat_map (overlay g (pre ++ suf) bboxes)
                     (seq (length pre) (length suf)))
    = (2 * count_present suf)%nat.
Proof.
  unfold count_present.
  induction suf as [|a suf IH]; intros pre.
  - reflexivity.
  - cbn [length seq flat_map filter]. rewrite length_app, overlay_length.
    rewrite nth_middle.
    specialize (IH (pre ++ [a])).
    rewrite <- app_assoc in IH. cbn [app] in IH.
    rewrite length_app in IH. cbn [length] in IH.
    replace (length pre + 1)%nat with (S (length pre)) in IH by lia.
    rewrite IH. destruct (truthy a); cbn [length]; lia.
Qed.

Lemma plot_sample_fails_iff (imshow_accepts : ImageArray -> bool)
  (g : Globals) (img : ImageArray) (labels : list float) (bboxes : list Box) :
  imshow_accepts img = true ->
  plot_sample imshow_accepts g img labels bboxes = Fails PlotIndexError <->
  exists cls : nat,
    (cls < length labels)%nat /\
    truthy (nth cls labels PrimFloat.zero) = true /\
    (length bboxes <= cls \/ 2 <= cls)%nat.
Proof.
  intros Hacc. rewrite plot_sample_eq, Hacc.
  destruct (existsb (undrawable labels bboxes) (seq 0 (length labels))) eqn:Hex.
  - split; [intros _|reflexivity].
    apply existsb_exists in Hex. destruct Hex as (cls & Hin & Hbad).
    apply in_seq in Hin. unfold undrawable in Hbad.
    apply andb_prop in Hbad. destruct Hbad as [Ht Hb].
    apply orb_prop in Hb.
    exists cls. repeat split; [lia | exact Ht |].
    destruct Hb as [Hb|Hb]; apply Nat.leb_le in Hb; lia.
  - split; [discriminate|]. intros (cls & Hlt & Ht & Hb).
    assert (Hbad : existsb (undrawable labels bboxes) (seq 0 (length labels)) = true).
    { apply existsb_exists. exists cls. split; [apply in_seq; lia|].
      unfold undrawable. rewrite Ht. cbn [andb].
      apply orb_true_intro.
      destruct Hb as [Hb|Hb]; [left|right]; apply Nat.leb_le; exact Hb. }
    rewrite Hbad in Hex. discriminate.
Qed.

(** X12: when [imshow] accepts the image, [plot_sample] raises IndexError
    exactly when some present class (non-zero label) has no row in
    [bboxes] or has index 2 or more, beyond the two names and colours;
    absent classes never make it fail. *)
Theorem plot_sample_index_error (imshow_accepts : ImageArray -> bool)
  (g : Globals) (img : ImageArray) (labels : list float) (bboxes : list Box) :
  imshow_accepts img = true ->
  plot_sample imshow_accepts g img labels bboxes = Fails PlotIndexError <->
  exists cls : nat,
    (cls < length labels)%nat /\
    truthy (nth cls labels PrimFloat.zero) = true /\
    (length bboxes <= cls \/ 2 <= cls)%nat.
Proof. apply plot_sample_fails_iff. Qed.

(** X13: when [imshow] accepts the image and every present class has a box
    and an index below 2, [plot_sample] shows the image with the axis off
    and adds, in class order, a rectangle followed by its text for each
    present class and nothing for an absent one: twice as many artists as
    present classes. *)
Theorem plot_sample_artists (imshow_accepts : ImageArray -> bool)
  (g : Globals) (img : ImageArray) (labels : list float) (bboxes : list Box) :
  imshow_accepts img = true ->
  (forall cls : nat,
     (cls < length labels)%nat ->
     truthy (nth cls labels PrimFloat.zero) = true ->
     (cls < length bboxes)%nat /\ (cls < 2)%nat) ->
  exists artists : list Artist,
    plot_sample imshow_accepts g img labels bboxes
    = Done {| fig_image := img; fig_artists := artists; fig_axis := false |} /\
    artists = flat_map (overlay g labels bboxes) (seq 0 (length labels)) /\
    length artists = (2 * count_present labels)%nat.
Proof.
  intros Hacc Hok. eexists. rewrite plot_sample_eq, Hacc.
  assert (Hex : existsb (undrawable labels bboxes) (seq 0 (length labels)) = false).
  { destruct (existsb _ _) eqn:Hex; [|reflexivity].
    apply existsb_exists in Hex. destruct Hex as (cls & Hin & Hbad).
    apply in_seq in Hin. unfold undrawable in Hbad.
    apply andb_prop in Hbad. destruct Hbad as [Ht Hb].
    destruct (Hok cls ltac:(lia) Ht) as [Hb1 Hb2].
    apply orb_prop in Hb. destruct Hb as [Hb|Hb]; apply Nat.leb_le in Hb; lia. }
  rewrite Hex. split; [reflexivity|]. split; [reflexivity|].
  apply (overlay_count g bboxes labels []).
Qed.

(** X14: plotting a sample of the notebook's generator draws, for class 0
    and then class 1, a rectangle whose corner is exactly the drawn pixel
    (x1, y1) and whose width and height are exactly 20.0, with the class
    name at (x1, y1 - 5): dividing by 64 and multiplying back loses
    nothing in float64. *)
Theorem plot_sample_of_generated {R : Type} `{RandomSource R}
  (ellipse_cover : Z * Z * Z * Z -> Z -> Z -> bool)
  (imshow_accepts : ImageArray -> bool)
  (s s' : R) (img : ImageArray) (labels : list float) (bboxes : list Box)
  (c0 c1 : Z * Z) :
  generate_sample ellipse_cover notebook s = Ok ((img, labels, bboxes), s') ->
  fst (draws 2 s) = [c0; c1] ->
  imshow_accepts img = true ->
  plot_sample imshow_accepts notebook img labels bboxes
  = Done {| fig_image := img;
            fig_artists := expected_artists 0 c0 ++ expected_artists 1 c1;
            fig_axis := false |}.
Proof.
  intros Hrun Hcs Hacc.
  destruct (generate_sample_inv _ _ _ _ _ _ _ Hrun) as (_ & _ & Hl & Hb & _).
  change (Z.to_nat (NUM_CLASSES notebook)) with 2%nat in Hl, Hb.
  rewrite Hcs in Hb. cbn [map] in Hb. cbn [repeat] in Hl.
  subst labels bboxes.
  pose proof (draws_range 2 s) as Hr. rewrite Hcs in Hr.
  inversion Hr as [|? ? Hc0 Hr']; subst.
  inversion Hr' as [|? ? Hc1 _]; subst.
  rewrite plot_sample_eq, Hacc.
  cbn [length seq existsb flat_map]. unfold undrawable, overlay.
  cbn [nth length]. change (truthy PrimFloat.one) with true.
  cbn [andb orb Nat.leb].
  rewrite (class_artists_normalised _ 0 c0 Hc0) by reflexivity.
  rewrite (class_artists_normalised _ 1 c1 Hc1) by reflexivity.
  now rewrite app_nil_r.
Qed.

(** X15: [plot_sample] knows two classes only.  With NUM_CLASSES >= 3
    every sample [generate_sample] returns makes [plot_sample] (under the
    same globals) raise IndexError, since the third class is marked
    present. *)
Theorem plot_sample_third_class {R : Type} `{RandomSource R}
  (ellipse_cover : Z * Z * Z * Z -> Z -> Z -> bool)
  (imshow_accepts : ImageArray -> bool) (g : Globals)
  (s s' : R) (img : ImageArray) (labels : list float) (bboxes : list Box) :
  generate_sample ellipse_cover g s = Ok ((img, labels, bboxes), s') ->
  3 <= NUM_CLASSES g ->
  imshow_accepts img = true ->
  plot_sample imshow_accepts g img labels bboxes = Fails PlotIndexError.
Proof.
  intros Hrun HK Hacc.
  destruct (generate_sample_inv _ _ _ _ _ _ _ Hrun) as (_ & _ & Hl & _).
  apply plot_sample_fails_iff; [exact Hacc|].
  exists 2%nat. subst labels. rewrite repeat_length.
  split; [lia|]. split; [|right; lia].
  rewrite nth_repeat_lt by lia. reflexivity.
Qed.

(* ================================================================= *)
(** ** The further theorems on concrete runs *)





Lemma generate_sample_small_canvas_unchecked_witness :
  exists (s : Tape) (img : ImageArray) (labels : list float)
         (x1 y1 x2 y2 : float) (others : list Box) (s' : Tape),
    generate_sample inscribed_ellipse small_canvas s
    = Ok ((img, labels, (x1, y1, x2, y2) :: others), s') /\
    PrimFloat.leb x2 1 = false /\
    ~ box_in_unit_square (x1, y1, x2, y2).
Proof.
  apply (generate_sample_small_canvas_unchecked inscribed_ellipse small_canvas);
    cbn; lia.
Defined.

Lemma create_dataset_nonpositive_count_witness :
  create_dataset inscribed_ellipse negative_size (-3) demo_tape
  = Ok (([], [], []), demo_tape).
Proof.
  apply (create_dataset_nonpositive_count inscribed_ellipse negative_size
           (-3) demo_tape).
  lia.
Defined.




Lemma plot_sample_index_error_witness :
  plot_sample accept_all notebook demo_image [1; 0; 1]%float demo_boxes
  = Fails PlotIndexError <->
  exists cls : nat,
    (cls < 3)%nat /\
    truthy (nth cls [1; 0; 1]%float PrimFloat.zero) = true /\
    (2 <= cls \/ 2 <= cls)%nat.
Proof.
  apply (plot_sample_index_error accept_all notebook demo_image
           [1; 0; 1]%float demo_boxes).
  reflexivity.
Defined.

Lemma plot_sample_artists_witness :
  exists artists : list Artist,
    plot_sample accept_all notebook demo_image [0; 1; 0]%float demo_boxes
    = Done {| fig_image := demo_image; fig_artists := artists;
              fig_axis := false |} /\
    artists = flat_map (overlay notebook [0; 1; 0]%float demo_boxes) [0; 1; 2]%nat /\
    length artists = 2%nat.
Proof.
  apply (plot_sample_artists accept_all notebook demo_image
           [0; 1; 0]%float demo_boxes).
  - reflexivity.
  - intros [|[|[|cls]]] Hlt Ht; cbn in Hlt; try lia; try discriminate Ht.
    cbn. lia.
Defined.

Lemma plot_sample_of_generated_witness :
  plot_sample accept_all notebook demo_image [1; 1]%float demo_boxes
  = Done {| fig_image := demo_image;
            fig_artists := expected_artists 0 (10, 10)
                           ++ expected_artists 1 (20, 15);
            fig_axis := false |}.
Proof.
  apply (plot_sample_of_generated inscribed_ellipse accept_all
           demo_tape (demo_after demo_tape) demo_image [1; 1]%float demo_boxes
           (10, 10) (20, 15)).
  - vm_compute. reflexivity.
  - vm_compute. reflexivity.
  - reflexivity.
Defined.

Lemma plot_sample_third_class_witness :
  plot_sample accept_all three_classes three_class_image [1; 1; 1]%float
              three_class_boxes
  = Fails PlotIndexError.
Proof.
  apply (plot_sample_third_class inscribed_ellipse accept_all three_classes
           three_class_tape {| raw := raw three_class_tape; pos := 6 |}
           three_class_image [1; 1; 1]%float three_class_boxes).
  - vm_compute. reflexivity.
  - cbn. lia.
  - reflexivity.
Defined.
